(** * Advisering om adresseforholdsændringer: the filtering and correlation core

    A shallow embedding of [robot_framework/process.py]: the row filter
    ([read_excel_file]), the address history walk ([look_up_address_change]),
    the enrichment pass ([get_address_changes]) and the day-difference pass
    ([calculate_difference]), with the properties of the specification
    proved about them.

    The Python functions mutate one openpyxl worksheet in place and may raise;
    they are embedded in a state-and-exception monad whose state is the
    worksheet together with the number of readings taken from the system
    clock.  The state survives an exception, so that what had been done to
    the sheet when a run aborted can be stated. *)

From stdpp Require Import list strings pretty.
From Stdlib Require Import ZArith Lia Ascii.

(** ** Dates and times, as CPython's [datetime] module computes them *)

Module Datetime.

Local Open Scope Z_scope.

Record date := Date { year : Z; month : Z; day : Z }.

Record datetime := DateTime {
  dt_date : date;
  hour : Z;
  minute : Z;
  second : Z;
  microsecond : Z
}.

(** A [timedelta] is kept normalised: [0 <= seconds < 86400] and
    [0 <= microseconds < 1000000]; only [days] carries the sign. *)
Record timedelta := TimeDelta { days : Z; seconds : Z; microseconds : Z }.

Definition is_leap (y : Z) : bool :=
  (y mod 4 =? 0) && (negb (y mod 100 =? 0) || (y mod 400 =? 0)).

(** [_days_before_year]: number of days before January 1st of year [y]. *)
Definition days_before_year (y : Z) : Z :=
  let y := y - 1 in
  y * 365 + y / 4 - y / 100 + y / 400.

(** [_DAYS_BEFORE_MONTH], indexed by the month number (entry 0 unused). *)
Definition DAYS_BEFORE_MONTH : list Z :=
  [0; 0; 31; 59; 90; 120; 151; 181; 212; 243; 273; 304; 334].

Definition days_before_month (y m : Z) : Z :=
  nth (Z.to_nat m) DAYS_BEFORE_MONTH 0
  + (if (2 <? m) && is_leap y then 1 else 0).

(** [_ymd2ord]: the proleptic Gregorian ordinal, 0001-01-01 being day 1. *)
Definition ymd2ord (y m d : Z) : Z :=
  days_before_year y + days_before_month y m + d.

Definition toordinal (d : date) : Z := ymd2ord (year d) (month d) (day d).

(** [timedelta(days, seconds, microseconds)] with the carries of the
    constructor: Python's [divmod] rounds down, as [Z.div] and [Z.modulo]
    do for a positive divisor. *)
Definition mk_timedelta (d s us : Z) : timedelta :=
  let s := s + us / 1000000 in
  {| days := d + s / 86400;
     seconds := s mod 86400;
     microseconds := us mod 1000000 |}.

(** [date.__sub__] on two dates. *)
Definition date_sub (a b : date) : timedelta :=
  mk_timedelta (toordinal a - toordinal b) 0 0.

Definition seconds_of_day (t : datetime) : Z :=
  second t + minute t * 60 + hour t * 3600.

(** [datetime.__sub__] on two naive datetimes. *)
Definition datetime_sub (a b : datetime) : timedelta :=
  mk_timedelta (toordinal (dt_date a) - toordinal (dt_date b))
               (seconds_of_day a - seconds_of_day b)
               (microsecond a - microsecond b).

(** Microseconds since the start of day 0: the instant a naive datetime
    denotes, used to state durations exactly. *)
Definition instant (t : datetime) : Z :=
  (toordinal (dt_date t) * 86400 + seconds_of_day t) * 1000000 + microsecond t.

Definition microseconds_per_day : Z := 86400 * 1000000.

(** A date at midnight. *)
Definition midnight (d : date) : datetime :=
  {| dt_date := d; hour := 0; minute := 0; second := 0; microsecond := 0 |}.

#[global] Instance date_eq_dec : EqDecision date.
Proof. solve_decision. Defined.

#[global] Instance datetime_eq_dec : EqDecision datetime.
Proof. solve_decision. Defined.

End Datetime.

Import Datetime.

(** ** Python values and exceptions *)

(** The values a cell of the sheet holds or the process writes into one. *)
Inductive value :=
| VNone
| VStr (s : string)
| VInt (n : Z)
| VDate (d : date)
| VDateTime (t : datetime).

#[global] Instance value_eq_dec : EqDecision value.
Proof. solve_decision. Defined.

(** Truth value of an object in a condition: [None], the empty string and
    zero are false, dates and datetimes are always true. *)
Definition truthy (v : value) : bool :=
  match v with
  | VNone => false
  | VStr s => negb (String.eqb s "")
  | VInt n => negb (n =? 0)%Z
  | VDate _ | VDateTime _ => true
  end.

(** [==] on the values above is structural: objects of different types
    are unequal. *)
Definition py_eq (v w : value) : bool := bool_decide (v = w).

(** The exceptions the core can raise. *)
Inductive exn := ValueError | TypeError | AttributeError | IndexError.

Inductive outcome (A : Type) :=
| Ok (a : A)
| Raise (e : exn).
Arguments Ok {A} a.
Arguments Raise {A} e.

(** ** The worksheet

    openpyxl keeps the cells of a sheet in a dictionary keyed by position and
    derives [max_row] and [max_column] from the keys; a position that holds
    no cell reads [None], and reading it creates an empty cell there.  The
    sheet is represented by its grid of values: element [i] of the list is
    row [i + 1], the list ends with row [max_row], and a row holds the values
    of its cells from column 1 on, a position past its end reading [None].
    The process reads inside the bounds of the sheet only, where an empty
    cell and no cell read alike, so a read leaves the grid as it is.  Rows
    and columns are numbered from 1, as in openpyxl, and the process never
    passes a number below 1. *)

Abbreviation Row := (list value).
Abbreviation Worksheet := (list Row).

Definition max_row (ws : Worksheet) : nat := Nat.max 1 (length ws).

Definition max_column (ws : Worksheet) : nat :=
  Nat.max 1 (max_list (length <$> ws)).

Definition pad (n : nat) (r : Row) : Row := r ++ replicate (n - length r) VNone.

Definition sheet_row (ws : Worksheet) (r : nat) : Row := default [] (ws !! (r - 1)).

(** The value in column [c] of a row. *)
Definition cell_of (row : Row) (c : nat) : value := default VNone (row !! (c - 1)).

(** [ws.cell(r, c).value] *)
Definition cell_value (ws : Worksheet) (r c : nat) : value :=
  cell_of (sheet_row ws r) c.

(** [[c.value for c in ws[r]]]: the cells of row [r] in columns
    [1 .. max_column]. *)
Definition row_values (ws : Worksheet) (r : nat) : list value :=
  pad (max_column ws) (sheet_row ws r).

(** [ws.cell(row=r, column=c, value=v)] *)
Definition set_cell (ws : Worksheet) (r c : nat) (v : value) : Worksheet :=
  let ws := ws ++ replicate (r - length ws) [] in
  <[r - 1 := <[c - 1 := v]> (pad c (sheet_row ws r))]> ws.

(** [ws.delete_rows(idx)]: the rows below [idx] move up by one. *)
Definition delete_rows (ws : Worksheet) (idx : nat) : Worksheet :=
  if (1 <=? idx) && (idx <=? length ws) then delete (idx - 1) ws else ws.

(** ** The monad of the process *)

(** [ticks] counts the calls of [datetime.now()] made so far. *)
Record state := State { sheet : Worksheet; ticks : nat }.

Definition M (A : Type) : Type := state -> outcome A * state.

Definition ret {A} (a : A) : M A := fun s => (Ok a, s).

Definition bind {A B} (m : M A) (k : A -> M B) : M B :=
  fun s =>
    match m s with
    | (Ok a, s') => k a s'
    | (Raise e, s') => (Raise e, s')
    end.

Notation "x <- m ;; k" := (bind m (fun x => k))
  (at level 100, m at next level, right associativity).
Notation "m ;; k" := (bind m (fun _ => k))
  (at level 100, right associativity).

Definition lift {A} (o : outcome A) : M A := fun s => (o, s).

Definition get_sheet : M Worksheet := fun s => (Ok (sheet s), s).

Definition update_sheet (f : Worksheet -> Worksheet) : M unit :=
  fun s => (Ok tt, {| sheet := f (sheet s); ticks := ticks s |}).

(** [datetime.now()]: the system clock is a sequence of readings, and each
    call consumes the next one. *)
Definition now (clock : nat -> datetime) : M datetime :=
  fun s => (Ok (clock (ticks s)), {| sheet := sheet s; ticks := S (ticks s) |}).

(** [for x in l: body(x)] *)
Fixpoint for_each {A} (l : list A) (body : A -> M unit) : M unit :=
  match l with
  | [] => ret tt
  | x :: l => body x ;; for_each l body
  end.

(** [range(hi, lo, -1)]: [hi, hi - 1, ..., lo + 1]. *)
Definition range_down (hi lo : nat) : list nat := rev (seq (S lo) (hi - lo)).

(** [range(lo, hi)] *)
Definition range (lo hi : nat) : list nat := seq lo (hi - lo).

(** [l.index(x)]: position of the first element equal to [x]. *)
Fixpoint list_index (x : value) (l : list value) : option nat :=
  match l with
  | [] => None
  | y :: l => if py_eq y x then Some 0 else S <$> list_index x l
  end.

Definition index (l : list value) (x : value) : outcome nat :=
  match list_index x l with
  | Some i => Ok i
  | None => Raise ValueError
  end.

(** [t[i]] on a tuple *)
Definition getitem (t : list value) (i : nat) : outcome value :=
  match t !! i with
  | Some v => Ok v
  | None => Raise IndexError
  end.

(** [now - v] for a datetime [now]: only a datetime can be subtracted. *)
Definition datetime_minus (t : datetime) (v : value) : outcome timedelta :=
  match v with
  | VDateTime u => Ok (datetime_sub t u)
  | _ => Raise TypeError
  end.

(** [v.date()] *)
Definition date_of (v : value) : outcome date :=
  match v with
  | VDateTime t => Ok (dt_date t)
  | _ => Raise AttributeError
  end.

(** [v - d] for a date [d]: only a date that is not a datetime has one. *)
Definition minus_date (v : value) (d : date) : outcome timedelta :=
  match v with
  | VDate a => Ok (date_sub a d)
  | _ => Raise TypeError
  end.

(** ** read_excel_file *)

(** The condition of the [if] at lines 93-95; [or] stops at the first
    operand that is true, so the subtraction is only evaluated when the two
    other tests fail. *)
Definition delete_condition (aftaletype rim dato : value) (current_date : datetime)
  : outcome bool :=
  if truthy aftaletype then Ok true
  else if py_eq rim (VStr "IN") then Ok true
  else match datetime_minus current_date dato with
       | Ok d => Ok (days d <? 90)%Z
       | Raise e => Raise e
       end.

(** The body of the function from the loaded worksheet on ([wb.active]). *)
Definition read_excel_file (clock : nat -> datetime) : M unit :=
  ws <- get_sheet ;;
  let columns := row_values ws 1 in
  _ <- lift (index columns (VStr "CPR")) ;;
  _ <- lift (index columns (VStr "Beløb")) ;;
  u <- lift (index columns (VStr "Udbetalingsdato")) ;;
  let udbetalingsdato_index := u + 1 in
  a <- lift (index columns (VStr "Aftale type")) ;;
  let aftaletype_index := a + 1 in
  r <- lift (index columns (VStr "RIM aftaletype")) ;;
  let rim_index := r + 1 in
  for_each (range_down (max_row ws) 1) (fun row_index =>
    ws <- get_sheet ;;
    let aftaletype := cell_value ws row_index aftaletype_index in
    let rim := cell_value ws row_index rim_index in
    let dato := cell_value ws row_index udbetalingsdato_index in
    current_date <- now clock ;;
    c <- lift (delete_condition aftaletype rim dato current_date) ;;
    if c : bool then update_sheet (fun ws => delete_rows ws row_index) else ret tt).

(** ** look_up_address_change *)

(** A row of [DWH.MART.AdresseHistorik]. *)
Record HistoryRow := { DatoFra : date; Adressenoegle : string }.

(** The cursor after [cursor.execute(query, cpr)]: the row count the driver
    reports ([cursor.rowcount], which the code tests at line 146) and the
    rows [fetchall] returns, in the order of the query
    ([ORDER BY DatoFra DESC]). *)
Record Cursor := { rowcount : Z; fetchall : list HistoryRow }.

(** The [for] loop at lines 154-158. *)
Fixpoint walk (address_key : string) (date_from : date) (rows : list HistoryRow) : date :=
  match rows with
  | [] => date_from
  | row :: rows =>
      if String.eqb (Adressenoegle row) address_key
      then walk address_key (DatoFra row) rows
      else date_from
  end.

Definition look_up_address_change (cursor : Cursor) : outcome (option date) :=
  if (rowcount cursor =? 0)%Z then Ok None
  else
    let rows := fetchall cursor in
    match rows with
    | [] => Raise IndexError
    | row0 :: _ =>
        let date_from := DatoFra row0 in
        let address_key := Adressenoegle row0 in
        Ok (Some (walk address_key date_from rows))
    end.

(** ** get_address_changes *)

(** [execute cpr] is the cursor after the query has run for [cpr]; the
    connection and the query themselves are taken to succeed.  The column
    width and the number format set at lines 113 and 128 hold no value and
    are left out. *)
Definition get_address_changes (execute : value -> Cursor) : M unit :=
  ws <- get_sheet ;;
  let columns := row_values ws 1 in
  let aendringsdato_index := length columns + 1 in
  update_sheet (fun ws => set_cell ws 1 aendringsdato_index (VStr "Adresseændringsdato")) ;;
  c <- lift (index columns (VStr "CPR")) ;;
  let cpr_index := c + 1 in
  ws <- get_sheet ;;
  for_each (range 2 (max_row ws + 1)) (fun row_index =>
    ws <- get_sheet ;;
    let cpr := cell_value ws row_index cpr_index in
    date <- lift (look_up_address_change (execute cpr)) ;;
    match date with
    | Some d => update_sheet (fun ws => set_cell ws row_index aendringsdato_index (VDate d))
    | None => ret tt
    end).

(** ** calculate_difference *)

Definition calculate_difference : M unit :=
  ws <- get_sheet ;;
  let columns := row_values ws 1 in
  let difference_index := length columns + 1 in
  update_sheet (fun ws => set_cell ws 1 difference_index (VStr "Difference")) ;;
  udbetalingsdato_index <- lift (index columns (VStr "Udbetalingsdato")) ;;
  aendringsdato_index <- lift (index columns (VStr "Adresseændringsdato")) ;;
  ws <- get_sheet ;;
  for_each (range_down (max_row ws) 1) (fun row_index =>
    ws <- get_sheet ;;
    let row := row_values ws row_index in
    aendringsdato <- lift (getitem row aendringsdato_index) ;;
    udbetalingsdato <- lift (getitem row udbetalingsdato_index) ;;
    d <- lift (date_of udbetalingsdato) ;;
    diff <- lift (minus_date aendringsdato d) ;;
    if (days diff <? 89)%Z
    then update_sheet (fun ws => delete_rows ws row_index)
    else update_sheet (fun ws => set_cell ws row_index difference_index (VInt (days diff)))).

(** ** process

    The part of [process] between the download of the attachment and the
    sending of the report (lines 24, 26 and 27). *)
Definition process (clock : nat -> datetime) (execute : value -> Cursor) : M unit :=
  read_excel_file clock ;;
  get_address_changes execute ;;
  calculate_difference.

(** ** Notions used to state the properties *)

(** The rows below the header. *)
Definition data_rows (ws : Worksheet) : list Row := drop 1 ws.

(** Position of a named column in the header, counted from 0 as
    [columns.index] does. *)
Definition column (ws : Worksheet) (name : string) : option nat :=
  list_index (VStr name) (row_values ws 1).

(** The columns [read_excel_file] looks up. *)
Definition required_columns : list string :=
  ["CPR"; "Beløb"; "Udbetalingsdato"; "Aftale type"; "RIM aftaletype"].

(** What one iteration of the loop of [read_excel_file] does to the row it
    visits, given the clock reading [t] it takes: [Ok None] when the row is
    deleted, [Ok (Some row)] when it stays.  [u], [a] and [r] are the
    positions of Udbetalingsdato, Aftale type and RIM aftaletype. *)
Definition filter_step (u a r : nat) (t : datetime) (row : Row) : outcome (option Row) :=
  match delete_condition (cell_of row (a + 1)) (cell_of row (r + 1))
                         (cell_of row (u + 1)) t with
  | Ok true => Ok None
  | Ok false => Ok (Some row)
  | Raise e => Raise e
  end.

(** [diff.days] at line 185, from the cells of the row. *)
Definition day_difference (u a : nat) (row : Row) : outcome Z :=
  match date_of (default VNone (row !! u)) with
  | Raise e => Raise e
  | Ok d =>
      match minus_date (default VNone (row !! a)) d with
      | Raise e => Raise e
      | Ok diff => Ok (days diff)
      end
  end.

(** The row with [v] written in the column at position [w] (from 0). *)
Definition with_cell (w : nat) (v : value) (row : Row) : Row :=
  <[w := v]> (pad (S w) row).

(** What one iteration of the loop of [calculate_difference] does to the
    row it visits; [w] is the position of the Difference column. *)
Definition difference_step (u a w : nat) (row : Row) : outcome (option Row) :=
  match day_difference u a row with
  | Ok d => if (d <? 89)%Z then Ok None else Ok (Some (with_cell w (VInt d) row))
  | Raise e => Raise e
  end.

(** What one iteration of the loop of [get_address_changes] does to the
    row it visits; [c] is the position of CPR and [w] the position of the
    new column. *)
Definition enrich_step (execute : value -> Cursor) (c w : nat) (row : Row) : outcome Row :=
  match look_up_address_change (execute (cell_of row (c + 1))) with
  | Ok (Some d) => Ok (with_cell w (VDate d) row)
  | Ok None => Ok row
  | Raise e => Raise e
  end.

(** A pass from the last row to the first over the rows [rev todo], the
    rows [below] under them having been visited: the outcome, the rows not
    visited (last first), the rows under them, and the clock readings used.
    [step k row] is what the pass does to [row] when [k] readings have been
    taken, and each visit takes [inc] readings. *)
Fixpoint backwards (step : nat -> Row -> outcome (option Row)) (inc : nat)
    (todo below : list Row) (k : nat) : outcome unit * (list Row * list Row * nat) :=
  match todo with
  | [] => (Ok tt, ([], below, k))
  | row :: todo' =>
      match step k row with
      | Ok None => backwards step inc todo' below (k + inc)
      | Ok (Some row') => backwards step inc todo' (row' :: below) (k + inc)
      | Raise e => (Raise e, (todo, below, k + inc))
      end
  end.

(** A pass from the first row to the last that rewrites rows and deletes
    none: the outcome and the rows after it. *)
Fixpoint forwards (step : Row -> outcome Row) (rows : list Row) : outcome unit * list Row :=
  match rows with
  | [] => (Ok tt, [])
  | row :: rows' =>
      match step row with
      | Ok row' => let '(o, rows'') := forwards step rows' in (o, row' :: rows'')
      | Raise e => (Raise e, rows)
      end
  end.

(** The rows a pass keeps, in their order: [keep i row] is what becomes of
    the row at position [i], [None] when it is deleted. *)
Fixpoint keep_rows (keep : nat -> Row -> option Row) (i : nat) (rows : list Row) : list Row :=
  match rows with
  | [] => []
  | row :: rows =>
      match keep i row with
      | Some row' => row' :: keep_rows keep (S i) rows
      | None => keep_rows keep (S i) rows
      end
  end.

(** The rows left when the positions in [marked] are deleted. *)
Definition unmarked (marked : nat -> bool) (rows : list Row) : list Row :=
  keep_rows (fun i row => if marked i then None else Some row) 0 rows.

(** What a visit leaves of a row: nothing when it was deleted. *)
Definition survivor (o : outcome (option Row)) : option Row :=
  match o with
  | Ok row => row
  | Raise _ => None
  end.

(** [row'] holds what [row] holds in the columns [1 .. w]. *)
Definition same_cells (w : nat) (row' row : Row) : Prop :=
  forall c, 1 <= c <= w -> cell_of row' c = cell_of row c.

(** [rows'] are some of [rows], in their order, none of their cells in the
    columns [1 .. w] changed. *)
Definition rows_kept_from (w : nat) (rows' rows : list Row) : Prop :=
  exists sub, sublist sub rows /\ Forall2 (same_cells w) rows' sub.

(** What [calculate_difference] leaves of a row whose difference is
    computed: the row with the difference written, or nothing when the
    difference is below 89. *)
Definition persisted (u a w : nat) (row : Row) : option Row :=
  survivor (difference_step u a w row).

(** *** The row filter in the words of the specification (section 4.2) *)

Definition non_null_non_empty (v : value) : bool :=
  match v with
  | VNone => false
  | VStr s => negb (String.eqb s "")
  | _ => true
  end.

(** [now - disbursementDate < 90 days], as a duration. *)
Definition too_recent (now disbursementDate : datetime) : bool :=
  (instant now - instant disbursementDate <? 90 * microseconds_per_day)%Z.

Definition disqualified (now : datetime) (agreementType specialAgreementType : value)
    (disbursementDate : datetime) : bool :=
  non_null_non_empty agreementType
  || bool_decide (specialAgreementType = VStr "IN")
  || too_recent now disbursementDate.

(** A row as the data model types it: the disbursement date is a datetime
    and the agreement type a string or null. *)
Definition typed_row (u a : nat) (row : Row) : Prop :=
  (exists t, cell_of row (u + 1) = VDateTime t)
  /\ (cell_of row (a + 1) = VNone \/ exists s, cell_of row (a + 1) = VStr s).

Definition disbursement_date (u : nat) (row : Row) : datetime :=
  match cell_of row (u + 1) with
  | VDateTime t => t
  | _ => midnight (Date 1 1 1)
  end.

Definition row_disqualified (u a r : nat) (now : datetime) (row : Row) : bool :=
  disqualified now (cell_of row (a + 1)) (cell_of row (r + 1)) (disbursement_date u row).

(** [applyEligibilityFilters(dataset, now)]: one timestamp for all rows. *)
Definition applyEligibilityFilters (u a r : nat) (now : datetime) (ws : Worksheet) : Worksheet :=
  take 1 ws ++ List.filter (fun row => negb (row_disqualified u a r now row)) (data_rows ws).

(** *** The address history in the words of the specification (section 4.3) *)

(** Ordered by [effectiveFrom] descending. *)
Fixpoint newest_first (rows : list HistoryRow) : Prop :=
  match rows with
  | r1 :: ((r2 :: _) as rows') =>
      (toordinal (DatoFra r2) <= toordinal (DatoFra r1))%Z /\ newest_first rows'
  | _ => True
  end.

(** ** Inputs of the examples *)

(** The history of section 8 of the specification, newest first. *)
Definition history_AAB : list HistoryRow :=
  [ {| DatoFra := Date 2024 6 1; Adressenoegle := "A" |};
    {| DatoFra := Date 2024 1 1; Adressenoegle := "A" |};
    {| DatoFra := Date 2023 6 1; Adressenoegle := "B" |} ].

Definition cursor_AAB : Cursor := {| rowcount := 3; fetchall := history_AAB |}.

Definition cursor_empty : Cursor := {| rowcount := 0; fetchall := [] |}.

(** A [SELECT] that found no row, as pyodbc hands it over: the documentation
    of [Cursor.rowcount] gives -1 when the number of rows is unknown, which
    is what a database reports right after a [SELECT]. *)
Definition cursor_undetermined : Cursor := {| rowcount := -1; fetchall := [] |}.

(** A sheet with the five columns of the input and two rows paid out on
    2024-01-02, and a clock that passes midnight between its first two
    readings: 2024-04-01 00:00 is 90 days after 2024-01-02 00:00. *)
Definition header5 : Row :=
  [VStr "CPR"; VStr "Beløb"; VStr "Udbetalingsdato"; VStr "Aftale type";
   VStr "RIM aftaletype"].

Definition row_P1 : Row :=
  [VStr "P1"; VInt 1000; VDateTime (midnight (Date 2024 1 2)); VNone; VNone].

Definition row_P2 : Row :=
  [VStr "P2"; VInt 1000; VDateTime (midnight (Date 2024 1 2)); VNone; VNone].

Definition sheet_two_rows : Worksheet := [header5; row_P1; row_P2].

Definition clock_over_midnight (j : nat) : datetime :=
  match j with
  | 0 => {| dt_date := Date 2024 3 31; hour := 23; minute := 59; second := 59;
            microsecond := 999999 |}
  | _ => midnight (Date 2024 4 1)
  end.

(** A clock that stands still on 2024-06-01, and a sheet with one row for
    each way of being filtered. *)
Definition clock_june (j : nat) : datetime := midnight (Date 2024 6 1).

Definition sheet_five_rows : Worksheet :=
  [header5;
   [VStr "P1"; VInt 1000; VDateTime (midnight (Date 2024 1 1)); VNone; VNone];
   [VStr "P2"; VInt 1000; VDateTime (midnight (Date 2024 1 1)); VStr "X"; VNone];
   [VStr "P3"; VInt 1000; VDateTime (midnight (Date 2024 1 1)); VStr ""; VStr "IN"];
   [VStr "P4"; VInt 1000; VDateTime (midnight (Date 2024 5 1)); VStr ""; VStr ""];
   [VStr "P5"; VInt 1000; VDateTime (midnight (Date 2024 1 2)); VStr ""; VStr ""]].

(** A sheet as [get_address_changes] leaves it: disbursements of 2024-01-01
    followed by a move 121, 18 and 89 days later. *)
Definition header6 : Row := header5 ++ [VStr "Adresseændringsdato"].

Definition sheet_enriched : Worksheet :=
  [header6;
   [VStr "P1"; VInt 1000; VDateTime (midnight (Date 2024 1 1)); VNone; VNone;
    VDate (Date 2024 5 1)];
   [VStr "P2"; VInt 1000; VDateTime (midnight (Date 2024 1 1)); VNone; VNone;
    VDate (Date 2024 1 19)];
   [VStr "P3"; VInt 1000; VDateTime (midnight (Date 2024 1 1)); VNone; VNone;
    VDate (Date 2024 3 30)]].

(** The same with a person whose history is empty: [get_address_changes]
    has left the cell of the address change date unset. *)
Definition sheet_unset_date : Worksheet :=
  [header6;
   [VStr "P1"; VInt 1000; VDateTime (midnight (Date 2024 1 1)); VNone; VNone;
    VDate (Date 2024 5 1)];
   [VStr "P4"; VInt 1000; VDateTime (midnight (Date 2024 1 1)); VNone; VNone]].

(** The scenario of section 8: one row paid out on 2024-01-01, the clock
    at 2024-06-01, and a history that starts on the given date. *)
Definition sheet_scenario : Worksheet :=
  [header5; [VStr "P1"; VInt 1000; VDateTime (midnight (Date 2024 1 1)); VStr ""; VStr ""]].

Definition history_since (d : date) (cpr : value) : Cursor :=
  {| rowcount := 1; fetchall := [ {| DatoFra := d; Adressenoegle := "A" |} ] |}.

(** ** The mail side of the robot: get_email_attachment, send_email,
    clear_email_folder and the whole of process *)

(** [s.endswith(suffix)]: some tail of [s] is [suffix]. *)
Fixpoint endswith (s suffix : string) : bool :=
  if String.eqb s suffix then true
  else match s with
       | EmptyString => false
       | String _ s' => endswith s' suffix
       end.

(** [s.split(sep)] for a separator of one character, as both calls of the
    source have it: the pieces between the separators, empty ones kept. *)
Fixpoint split (sep : Ascii.ascii) (s : string) : list string :=
  match s with
  | EmptyString => [EmptyString]
  | String ch s' =>
      if Ascii.eqb ch sep then EmptyString :: split sep s'
      else match split sep s' with
           | part :: parts => String ch part :: parts
           | [] => [String ch EmptyString]
           end
  end.

(** [sep.join(parts)], to state what [split] keeps. *)
Fixpoint join (sep : Ascii.ascii) (parts : list string) : string :=
  match parts with
  | [] => EmptyString
  | [part] => part
  | part :: parts => part +:+ String sep (join sep parts)
  end.

(** [t.strftime('%d-%m-%Y')]: day and month on two digits. *)
Definition two_digits (n : Z) : string :=
  if (n <? 10)%Z then "0" +:+ pretty n else pretty n.

Definition strftime_dmy (t : datetime) : string :=
  two_digits (day (dt_date t)) +:+ "-" +:+ two_digits (month (dt_date t))
  +:+ "-" +:+ pretty (year (dt_date t)).

Module Robot.

(** An attachment as [mail.list_email_attachments] lists it, with the bytes
    [mail.get_attachment_data] returns for it, and an email of the folder
    Indbakke/AKBO as [mail.get_emails_from_folder] returns it.  The log-in
    to the Graph API is taken to succeed. *)
Record Attachment := { name : string; data : string }.

Record Email := { email_id : nat; attachments : list Attachment }.

(** What the robot needs from outside: the clock, the data warehouse, the
    reading and writing of workbooks by openpyxl (taken to succeed), the
    mime type of the workbook, the sender of [config] and the recipients
    given as arguments of the process. *)
Record Environment := {
  clock : nat -> datetime;
  execute : value -> Cursor;
  load_workbook : string -> Worksheet;
  save : Worksheet -> string;
  mime_type : string;
  EMAIL_SENDER : string;
  process_arguments : string
}.

(** The message handed to the SMTP server. *)
Record Message := {
  msg_to : list string;
  msg_from : string;
  msg_subject : string;
  msg_content : string;
  maintype : string;
  subtype : string;
  filename : string;
  payload : string
}.

(** The folder, the messages sent so far and the number of clock readings
    taken so far. *)
Record world := World { folder : list Email; outbox : list Message; readings : nat }.

Definition get_email_attachment (emails : list Email) : outcome string :=
  if negb (length emails =? 1) then Raise ValueError
  else
    match emails with
    | [] => Raise IndexError
    | email :: _ =>
        let attachments := attachments email in
        if negb (length attachments =? 1) then Raise ValueError
        else
          match attachments with
          | [] => Raise IndexError
          | attachment :: _ =>
              if negb (endswith (name attachment) ".XLSX") then Raise ValueError
              else Ok (data attachment)
          end
    end.

(** [maintype, subtype = parts] *)
Definition unpack2 (parts : list string) : outcome (string * string) :=
  match parts with
  | [x; y] => Ok (x, y)
  | _ => Raise ValueError
  end.

(** The message [send_email] builds and sends; the SMTP session is taken to
    succeed. *)
Definition send_email (env : Environment) : M Message :=
  let to := split ","%char (process_arguments env) in
  t1 <- now (clock env) ;;
  let subject := "Fastsættelsesliste Hjælp til boligindskud " +:+ strftime_dmy t1 in
  ws <- get_sheet ;;
  let excel_file := save env ws in
  types <- lift (unpack2 (split "/"%char (mime_type env))) ;;
  t2 <- now (clock env) ;;
  let file_name :=
    "Fastsættelsesliste Hjælp til boligindskud " +:+ strftime_dmy t2 +:+ ".XLSX" in
  ret {| msg_to := to;
         msg_from := EMAIL_SENDER env;
         msg_subject := subject;
         msg_content :=
           "Hermed fremsendes den månedlige fastsættelsesliste på Hjælp til boligindskud.";
         maintype := fst types;
         subtype := snd types;
         filename := file_name;
         payload := excel_file |}.

(** [mail.delete_email(email)]: the folder without the email of that id. *)
Definition delete_email (email : Email) (emails : list Email) : list Email :=
  List.filter (fun e => negb (email_id e =? email_id email)) emails.

(** The folder after [clear_email_folder]: every email found in it is
    deleted, one after the other. *)
Definition clear_email_folder (emails : list Email) : list Email :=
  fold_left (fun remaining email => delete_email email remaining) emails emails.

(** [process], lines 23 to 31. *)
Definition process (env : Environment) (w : world) : outcome unit * world :=
  match get_email_attachment (folder w) with
  | Raise e => (Raise e, w)
  | Ok excel_file =>
      let wb := {| sheet := load_workbook env excel_file; ticks := readings w |} in
      match process (clock env) (execute env) wb with
      | (Raise e, wb) =>
          (Raise e, {| folder := folder w; outbox := outbox w; readings := ticks wb |})
      | (Ok _, wb) =>
          match send_email env wb with
          | (Raise e, wb) =>
              (Raise e, {| folder := folder w; outbox := outbox w; readings := ticks wb |})
          | (Ok msg, wb) =>
              (Ok tt, {| folder := clear_email_folder (folder w);
                         outbox := outbox w ++ [msg];
                         readings := ticks wb |})
          end
      end
  end.

End Robot.

(** ** The report in one piece *)

(** The row [get_address_changes] makes of a row; [c] is the position of
    CPR and [w] the position of the new column. *)
Definition enriched (execute : value -> Cursor) (c w : nat) (row : Row) : Row :=
  match look_up_address_change (execute (cell_of row (c + 1))) with
  | Ok (Some d) => with_cell w (VDate d) row
  | _ => row
  end.

(** What [process] makes of the row at position [i] of [n], the clock read
    [k] times before: nothing when the filter deletes it or when the address
    changed less than 89 days after the disbursement, and else the row with
    the date of the change and the difference in two new columns at
    positions [w] and [w + 1]. *)
Definition report_row (clock : nat -> datetime) (execute : value -> Cursor)
    (c u a r w k n : nat) (i : nat) (row : Row) : option Row :=
  if row_disqualified u a r (clock (k + (n - 1 - i))) row then None
  else
    match look_up_address_change (execute (cell_of row (c + 1))) with
    | Ok (Some change) =>
        let d := (toordinal change - toordinal (dt_date (disbursement_date u row)))%Z in
        if (d <? 89)%Z then None
        else Some (with_cell (S w) (VInt d) (with_cell w (VDate change) row))
    | _ => None
    end.

(** *** What makes a pass raise *)

(** The row passes the two tests on the agreement types, so that the test
    of line 95 subtracts its disbursement date from the clock. *)
Definition judged_by_date (a r : nat) (row : Row) : Prop :=
  truthy (cell_of row (a + 1)) = false /\ cell_of row (r + 1) <> VStr "IN".

(** The lookup for the person of the row returns: the driver reports no row
    or [fetchall] has one. *)
Definition lookup_returns (execute : value -> Cursor) (c : nat) (row : Row) : Prop :=
  rowcount (execute (cell_of row (c + 1))) = 0%Z
  \/ fetchall (execute (cell_of row (c + 1))) <> [].

(** The row has what line 185 subtracts: a date in the column at position
    [a] and a datetime in the column at position [u]. *)
Definition has_dates (u a : nat) (row : Row) : Prop :=
  (exists change, default VNone (row !! a) = VDate change)
  /\ (exists dato, default VNone (row !! u) = VDateTime dato).

(** *** Inputs of the examples of the mail side *)

Definition environment_june : Robot.Environment :=
  {| Robot.clock := clock_june;
     Robot.execute := history_since (Date 2024 5 1);
     Robot.load_workbook := fun _ => sheet_scenario;
     Robot.save := fun _ => "bytes";
     Robot.mime_type :=
       "application/vnd.openxmlformats-officedocument.spreadsheetml.sheet.main+xml";
     Robot.EMAIL_SENDER := "robot@friend.dk";
     Robot.process_arguments := "a@aarhus.dk,b@aarhus.dk" |}.

Definition email_with_list : Robot.Email :=
  {| Robot.email_id := 7;
     Robot.attachments := [ {| Robot.name := "Liste.XLSX"; Robot.data := "bytes" |} ] |}.

Definition world_one_email : Robot.world :=
  {| Robot.folder := [email_with_list]; Robot.outbox := []; Robot.readings := 0 |}.

(** The message of a run on 2024-06-01. *)
Definition message_june : Robot.Message :=
  {| Robot.msg_to := ["a@aarhus.dk"; "b@aarhus.dk"];
     Robot.msg_from := "robot@friend.dk";
     Robot.msg_subject := "Fastsættelsesliste Hjælp til boligindskud 01-06-2024";
     Robot.msg_content :=
       "Hermed fremsendes den månedlige fastsættelsesliste på Hjælp til boligindskud.";
     Robot.maintype := "application";
     Robot.subtype := "vnd.openxmlformats-officedocument.spreadsheetml.sheet.main+xml";
     Robot.filename := "Fastsættelsesliste Hjælp til boligindskud 01-06-2024.XLSX";
     Robot.payload := "bytes" |}.


(** A sheet whose last row is blank, as a sheet with a formatted empty row
    at its end reads. *)
Definition sheet_blank_row : Worksheet :=
  [header5;
   [VStr "P1"; VInt 1000; VDateTime (midnight (Date 2024 1 1)); VNone; VNone];
   [VNone; VNone; VNone; VNone; VNone]].

(** A sheet without the column of the person numbers. *)
Definition sheet_no_cpr : Worksheet :=
  [[VStr "Beløb"; VStr "Udbetalingsdato"];
   [VInt 1000; VDateTime (midnight (Date 2024 1 1))]].

(** A sheet that already has a column named as the one
    [get_address_changes] appends. *)
Definition sheet_own_change_column : Worksheet :=
  [[VStr "CPR"; VStr "Adresseændringsdato"; VStr "Udbetalingsdato"];
   [VStr "P1"; VDate (Date 2020 1 1); VDateTime (midnight (Date 2024 1 1))]].

(** A data warehouse in which P1 moved on 2024-05-01, P5 on 2024-01-20 and
    nobody else has a history. *)
Definition execute_P1_P5 (cpr : value) : Cursor :=
  if py_eq cpr (VStr "P1") then history_since (Date 2024 5 1) cpr
  else if py_eq cpr (VStr "P5") then history_since (Date 2024 1 20) cpr
  else cursor_empty.

(** A person who moved back to an address held before: A since
    2024-03-01, B before that, and A before B. *)
Definition history_ABA : list HistoryRow :=
  [ {| DatoFra := Date 2024 3 1; Adressenoegle := "A" |};
    {| DatoFra := Date 2023 3 1; Adressenoegle := "B" |};
    {| DatoFra := Date 2020 3 1; Adressenoegle := "A" |} ].

(** * Properties *)

(** ** The calendar *)

Lemma mk_timedelta_days d s us :
  days (mk_timedelta d s us)
  = (((d * 86400 + s) * 1000000 + us) / microseconds_per_day)%Z.
Proof.
  unfold mk_timedelta, microseconds_per_day; cbn [days].
  replace (86400 * 1000000)%Z with (1000000 * 86400)%Z by lia.
  rewrite <- Z.div_div by lia.
  replace ((d * 86400 + s) * 1000000 + us)%Z
    with (us + (d * 86400 + s) * 1000000)%Z by lia.
  rewrite Z.div_add by lia.
  replace (us / 1000000 + (d * 86400 + s))%Z
    with ((s + us / 1000000) + d * 86400)%Z by lia.
  rewrite Z.div_add by lia. lia.
Qed.

(** The whole days of a difference of datetimes: the elapsed time divided
    by the length of a day, rounded down. *)
Lemma datetime_sub_days a b :
  days (datetime_sub a b) = ((instant a - instant b) / microseconds_per_day)%Z.
Proof.
  unfold datetime_sub. rewrite mk_timedelta_days. f_equal.
  unfold instant. lia.
Qed.

Lemma date_sub_days a b : days (date_sub a b) = (toordinal a - toordinal b)%Z.
Proof.
  unfold date_sub. rewrite mk_timedelta_days.
  unfold microseconds_per_day.
  replace ((((toordinal a - toordinal b) * 86400 + 0) * 1000000 + 0))%Z
    with ((toordinal a - toordinal b) * (86400 * 1000000))%Z by lia.
  apply Z.div_mul. lia.
Qed.

(** [.days < 90] is the strict comparison of the elapsed time with 90 days. *)
Lemma days_lt_90_too_recent now dato :
  (days (datetime_sub now dato) <? 90)%Z = too_recent now dato.
Proof.
  rewrite datetime_sub_days. unfold too_recent.
  apply eq_true_iff_eq. rewrite !Z.ltb_lt.
  pose proof (Z.div_lt_upper_bound (instant now - instant dato) microseconds_per_day 90).
  pose proof (Z.div_le_lower_bound (instant now - instant dato) microseconds_per_day 90).
  assert (0 < microseconds_per_day)%Z by (unfold microseconds_per_day; lia).
  split; intros; [|apply H; lia].
  destruct (Z.lt_ge_cases (instant now - instant dato) (90 * microseconds_per_day)); [done|].
  assert (90 <= (instant now - instant dato) / microseconds_per_day)%Z by (apply H0; lia).
  lia.
Qed.

(** ** The address history walk *)

Lemma walk_run key d rows :
  exists run older,
    rows = run ++ older
    /\ Forall (fun r => Adressenoegle r = key) run
    /\ (forall r, head older = Some r -> Adressenoegle r <> key)
    /\ walk key d rows = default d (DatoFra <$> last run).
Proof.
  revert d. induction rows as [|row rows IH]; intros d.
  - exists [], []. repeat split; [constructor | done].
  - simpl. destruct (String.eqb_spec (Adressenoegle row) key) as [Hk|Hk].
    + destruct (IH (DatoFra row)) as (run & older & -> & Hrun & Hold & Hw).
      exists (row :: run), older. repeat split; [by constructor | done |].
      rewrite Hw, last_cons. by destruct (last run).
    + exists [], (row :: rows). repeat split; [constructor |].
      intros r [= <-]. done.
Qed.

Lemma newest_first_app_l run older : newest_first (run ++ older) -> newest_first run.
Proof.
  induction run as [|r1 [|r2 run] IH]; simpl; try done.
  intros [? ?]. split; [done|]. by apply IH.
Qed.

Lemma newest_first_last rows oldest :
  newest_first rows -> last rows = Some oldest ->
  Forall (fun r => (toordinal (DatoFra oldest) <= toordinal (DatoFra r))%Z) rows.
Proof.
  induction rows as [|r1 [|r2 rows] IH]; intros Hs Hl; [done | |].
  - injection Hl as ->. by repeat constructor.
  - destruct Hs as [H12 Hs]. change (last (r2 :: rows) = Some oldest) in Hl.
    specialize (IH Hs Hl). constructor; [|done].
    apply Forall_inv in IH. lia.
Qed.

(** C1.  For a history that is not empty, [look_up_address_change] returns
    the [DatoFra] of the last entry of the longest run of entries at the
    start of the history that carry the address key of the newest entry;
    when the history is ordered newest first, no entry of that run is
    older.  For the history [(2024-06-01, A), (2024-01-01, A),
    (2023-06-01, B)] the result is 2024-01-01, and for a history of one
    entry it is the date of that entry. *)
Theorem look_up_address_change_contiguous_run :
  (forall cursor newest,
      head (fetchall cursor) = Some newest ->
      rowcount cursor <> 0%Z ->
      exists run older oldest,
        fetchall cursor = run ++ older
        /\ Forall (fun r => Adressenoegle r = Adressenoegle newest) run
        /\ (forall r, head older = Some r -> Adressenoegle r <> Adressenoegle newest)
        /\ last run = Some oldest
        /\ look_up_address_change cursor = Ok (Some (DatoFra oldest))
        /\ (newest_first (fetchall cursor) ->
            Forall (fun r => (toordinal (DatoFra oldest) <= toordinal (DatoFra r))%Z) run))
  /\ look_up_address_change cursor_AAB = Ok (Some (Date 2024 1 1))
  /\ (forall n entry,
        n <> 0%Z ->
        look_up_address_change {| rowcount := n; fetchall := [entry] |}
        = Ok (Some (DatoFra entry))).
Proof.
  split; [|split].
  - intros [n rows] newest Hhead Hn; simpl in *.
    destruct rows as [|row0 rows]; [done|]. injection Hhead as ->.
    destruct (walk_run (Adressenoegle newest) (DatoFra newest) (newest :: rows))
      as (run & older & Heq & Hrun & Hold & Hw).
    destruct run as [|r run].
    { exfalso. simpl in Heq. subst older. by apply (Hold newest). }
    destruct (last (r :: run)) as [oldest|] eqn:Hlast.
    2:{ rewrite last_cons in Hlast. by destruct (last run). }
    exists (r :: run), older, oldest. repeat split; try done.
    + unfold look_up_address_change; cbn [rowcount fetchall].
      destruct (Z.eqb_spec n 0); [done|]. by rewrite Hw.
    + intros Hs. rewrite Heq in Hs.
      eapply newest_first_last; [by eapply newest_first_app_l | done].
  - reflexivity.
  - intros n entry Hn. unfold look_up_address_change; simpl.
    destruct (Z.eqb_spec n 0); [done|]. by rewrite String.eqb_refl.
Qed.

Lemma look_up_address_change_contiguous_run_witness :
  exists run older oldest,
    history_AAB = run ++ older
    /\ Forall (fun r => Adressenoegle r = "A") run
    /\ (forall r, head older = Some r -> Adressenoegle r <> "A")
    /\ last run = Some oldest
    /\ look_up_address_change cursor_AAB = Ok (Some (DatoFra oldest))
    /\ (newest_first history_AAB ->
        Forall (fun r => (toordinal (DatoFra oldest) <= toordinal (DatoFra r))%Z) run).
Proof.
  apply (proj1 look_up_address_change_contiguous_run cursor_AAB
           {| DatoFra := Date 2024 6 1; Adressenoegle := "A" |}).
  - reflexivity.
  - simpl. lia.
Defined.

(** C5 fails on the code: an empty history is not always answered with
    [None].  The test of line 146 reads [cursor.rowcount] and not the rows:
    when the history has no entries, [look_up_address_change] returns [None]
    exactly when the row count is 0, and with any other row count it goes on
    to [rows[0]] (line 150), which raises [IndexError]. *)
Theorem look_up_address_change_no_rows cursor :
  fetchall cursor = [] ->
  (look_up_address_change cursor = Ok None <-> rowcount cursor = 0%Z)
  /\ (look_up_address_change cursor = Raise IndexError <-> rowcount cursor <> 0%Z).
Proof.
  unfold look_up_address_change. intros ->.
  destruct (Z.eqb_spec (rowcount cursor) 0) as [Hz|Hz]; by repeat split.
Qed.

Lemma look_up_address_change_no_rows_witness :
  look_up_address_change cursor_undetermined = Raise IndexError.
Proof.
  apply (proj2 (look_up_address_change_no_rows cursor_undetermined eq_refl)).
  unfold cursor_undetermined. cbn [rowcount]. lia.
Defined.

(** With the row count at 0 the guard of line 146 answers, as the
    docstring and the test [if date:] of the caller expect. *)
Example look_up_address_change_count_zero :
  look_up_address_change cursor_empty = Ok None.
Proof. reflexivity. Qed.

(** A person without history, through the whole of [process], when the row
    count of the [SELECT] is -1: the row passes the filter, the header cell
    of the new column is written, and the lookup raises. *)
Example process_empty_history_IndexError :
  process clock_june (fun _ => cursor_undetermined) (State sheet_scenario 0)
  = (Raise IndexError,
     State [header6;
            [VStr "P1"; VInt 1000; VDateTime (midnight (Date 2024 1 1)); VStr ""; VStr ""]] 1).
Proof. vm_compute. reflexivity. Qed.

(** ** Rows of the sheet *)

Lemma range_down_cons n : range_down (S (S n)) 1 = S (S n) :: range_down (S n) 1.
Proof.
  unfold range_down.
  replace (S (S n) - 1) with (S n) by lia. replace (S n - 1) with n by lia.
  rewrite seq_S, rev_app_distr. simpl. done.
Qed.

Lemma max_row_cons hdr (data : list Row) : max_row (hdr :: data) = S (length data).
Proof. unfold max_row. simpl. lia. Qed.

Lemma sheet_row_header hdr (data : list Row) : sheet_row (hdr :: data) 1 = hdr.
Proof. reflexivity. Qed.

Lemma sheet_row_data hdr (pre : list Row) row post :
  sheet_row (hdr :: pre ++ row :: post) (S (S (length pre))) = row.
Proof.
  unfold sheet_row. replace (S (S (length pre)) - 1) with (S (length pre)) by lia.
  simpl. by rewrite list_lookup_middle.
Qed.

Lemma delete_rows_data hdr (pre : list Row) row post :
  delete_rows (hdr :: pre ++ row :: post) (S (S (length pre))) = hdr :: pre ++ post.
Proof.
  unfold delete_rows.
  replace (S (S (length pre)) - 1) with (S (length pre)) by lia.
  rewrite andb_true_intro.
  2:{ split; [done|]. apply Nat.leb_le. simpl. rewrite length_app. simpl. lia. }
  simpl. f_equal. by rewrite delete_middle.
Qed.

Lemma set_cell_data hdr (pre : list Row) row post w v :
  set_cell (hdr :: pre ++ row :: post) (S (S (length pre))) (S w) v
  = hdr :: pre ++ with_cell w v row :: post.
Proof.
  unfold set_cell.
  replace (S (S (length pre)) - length (hdr :: pre ++ row :: post)) with 0
    by (simpl; rewrite length_app; simpl; lia).
  rewrite app_nil_r, sheet_row_data.
  replace (S (S (length pre)) - 1) with (S (length pre)) by lia.
  replace (S w - 1) with w by lia.
  simpl. f_equal. rewrite insert_app_r_alt by lia. by rewrite Nat.sub_diag.
Qed.

Lemma set_cell_header hdr (data : list Row) w v :
  set_cell (hdr :: data) 1 (S w) v = with_cell w v hdr :: data.
Proof.
  unfold set_cell. simpl. rewrite app_nil_r. by replace (w - 0) with w by lia.
Qed.

Lemma max_column_header hdr (data : list Row) : length hdr <= max_column (hdr :: data).
Proof. unfold max_column. simpl. lia. Qed.

Lemma pad_length n row : length (pad n row) = Nat.max n (length row).
Proof. unfold pad. rewrite length_app, length_replicate. lia. Qed.

Lemma pad_lookup n row i : i < n -> pad n row !! i = Some (default VNone (row !! i)).
Proof.
  intros Hi. unfold pad. destruct (decide (i < length row)) as [Hl|Hl].
  - rewrite lookup_app_l by done.
    destruct (lookup_lt_is_Some_2 row i Hl) as [x Hx]. by rewrite Hx.
  - rewrite lookup_app_r by lia. rewrite (lookup_ge_None_2 row i) by lia.
    simpl. apply lookup_replicate_2. lia.
Qed.

Lemma with_cell_app w v row : length row <= w -> with_cell w v row = pad w row ++ [v].
Proof.
  intros Hw. unfold with_cell, pad.
  replace (S w - length row) with (S (w - length row)) by lia.
  rewrite replicate_S_end, app_assoc.
  rewrite insert_app_r_alt by (rewrite length_app, length_replicate; lia).
  rewrite length_app, length_replicate.
  by replace (w - (length row + (w - length row))) with 0 by lia.
Qed.

(** ** The two kinds of pass over the rows *)

Section backwards_pass.

Variables (hdr : Row) (inc : nat) (body : nat -> M unit).
Variable step : nat -> Row -> outcome (option Row).

Hypothesis body_step : forall pre row post k,
  body (S (S (length pre))) (State (hdr :: pre ++ row :: post) k) =
    match step k row with
    | Ok None => (Ok tt, State (hdr :: pre ++ post) (k + inc))
    | Ok (Some row') => (Ok tt, State (hdr :: pre ++ row' :: post) (k + inc))
    | Raise e => (Raise e, State (hdr :: pre ++ row :: post) (k + inc))
    end.

Lemma for_each_backwards todo below k :
  for_each (range_down (1 + length todo) 1) body (State (hdr :: rev todo ++ below) k) =
    let '(o, (todo', below', k')) := backwards step inc todo below k in
    (o, State (hdr :: rev todo' ++ below') k').
Proof.
  revert below k. induction todo as [|row todo IH]; intros below k.
  - reflexivity.
  - cbn [length Nat.add]. rewrite range_down_cons. cbn [for_each rev backwards].
    unfold bind at 1. rewrite <- app_assoc. cbn [app].
    rewrite <- (length_rev todo) at 1. rewrite body_step.
    destruct (step k row) as [[row'|]|e].
    + apply (IH (row' :: below)).
    + apply IH.
    + cbn [rev]. by rewrite <- app_assoc.
Qed.

End backwards_pass.

Section forwards_pass.

Variables (hdr : Row) (body : nat -> M unit) (step : Row -> outcome Row).

Hypothesis body_step : forall pre row post k,
  body (S (S (length pre))) (State (hdr :: pre ++ row :: post) k) =
    match step row with
    | Ok row' => (Ok tt, State (hdr :: pre ++ row' :: post) k)
    | Raise e => (Raise e, State (hdr :: pre ++ row :: post) k)
    end.

Lemma for_each_forwards pre rows k :
  for_each (seq (S (S (length pre))) (length rows)) body (State (hdr :: pre ++ rows) k) =
    let '(o, rows') := forwards step rows in
    (o, State (hdr :: pre ++ rows') k).
Proof.
  revert pre. induction rows as [|row rows IH]; intros pre.
  - reflexivity.
  - cbn [length seq for_each forwards]. unfold bind at 1. rewrite body_step.
    destruct (step row) as [row'|e]; [|done].
    specialize (IH (pre ++ [row'])).
    rewrite length_app, <- app_assoc in IH. cbn [length app] in IH.
    rewrite Nat.add_1_r in IH.
    rewrite IH. destruct (forwards step rows). by rewrite <- app_assoc.
Qed.

End forwards_pass.

(** ** The functions as passes *)

Lemma list_index_lt x l i : list_index x l = Some i -> i < length l.
Proof.
  revert i. induction l as [|y l IH]; intros i; simpl; [done|].
  destruct (py_eq y x).
  - intros [= <-]. lia.
  - destruct (list_index x l) as [j|]; [|done].
    intros [= <-]. specialize (IH j eq_refl). lia.
Qed.

Lemma row_values_header_length (ws : Worksheet) : length (row_values ws 1) = max_column ws.
Proof.
  unfold row_values. rewrite pad_length.
  destruct ws as [|hdr data]; [reflexivity|].
  pose proof (max_column_header hdr data). rewrite sheet_row_header. lia.
Qed.

Lemma getitem_row_values (ws : Worksheet) r i :
  i < max_column ws ->
  getitem (row_values ws r) i = Ok (default VNone (sheet_row ws r !! i)).
Proof. intros Hi. unfold getitem, row_values. by rewrite pad_lookup. Qed.

(** A required column is missing: [columns.index] raises before the loop,
    the sheet and the clock untouched. *)
Lemma read_excel_file_missing clock (ws : Worksheet) k name :
  name ∈ required_columns ->
  column ws name = None ->
  read_excel_file clock (State ws k) = (Raise ValueError, State ws k).
Proof.
  unfold required_columns, column. rewrite !elem_of_cons, elem_of_nil.
  intros Hname Hnone.
  unfold read_excel_file, bind, get_sheet, lift, index; cbn [sheet].
  repeat match goal with
         | |- context [list_index ?x ?l] =>
             let E := fresh "E" in destruct (list_index x l) eqn:E; [|reflexivity]
         end.
  exfalso. destruct Hname as [->|[->|[->|[->|[->|[]]]]]]; congruence.
Qed.

Lemma read_excel_file_run clock hdr (data : list Row) k c b u a r :
  column (hdr :: data) "CPR" = Some c ->
  column (hdr :: data) "Beløb" = Some b ->
  column (hdr :: data) "Udbetalingsdato" = Some u ->
  column (hdr :: data) "Aftale type" = Some a ->
  column (hdr :: data) "RIM aftaletype" = Some r ->
  read_excel_file clock (State (hdr :: data) k) =
    let '(o, (todo', below', k')) :=
      backwards (fun k => filter_step u a r (clock k)) 1 (rev data) [] k in
    (o, State (hdr :: rev todo' ++ below') k').
Proof.
  unfold column. intros Hc Hb Hu Ha Hr.
  unfold read_excel_file, bind at 1 2 3 4 5 6, get_sheet at 1, lift, index; cbn [sheet].
  rewrite Hc, Hb, Hu, Ha, Hr, max_row_cons.
  match goal with
  | |- for_each _ ?body _ = _ =>
      pose proof (for_each_backwards hdr 1 body
                    (fun k => filter_step u a r (clock k))) as Hpass
  end.
  rewrite <- (rev_involutive data) at 2. rewrite <- (length_rev data).
  rewrite <- (app_nil_r (rev (rev data))).
  apply Hpass. clear Hpass. intros pre row post j.
  unfold bind, get_sheet, now, lift, update_sheet, ret; cbn [sheet ticks].
  unfold cell_value. rewrite sheet_row_data. unfold filter_step.
  replace (j + 1) with (S j) by lia.
  destruct (delete_condition _ _ _ _) as [[|]|e]; cbn [sheet ticks]; [|done..].
  by rewrite delete_rows_data.
Qed.

(** ** What a pass leaves *)

Lemma keep_rows_app keep i (rows1 rows2 : list Row) :
  keep_rows keep i (rows1 ++ rows2)
  = keep_rows keep i rows1 ++ keep_rows keep (i + length rows1) rows2.
Proof.
  revert i. induction rows1 as [|row rows1 IH]; intros i; simpl.
  - by rewrite Nat.add_0_r.
  - rewrite IH. replace (S i + length rows1) with (i + S (length rows1)) by lia.
    by destruct (keep i row).
Qed.

Lemma keep_rows_ext keep1 keep2 i (rows : list Row) :
  (forall j row, rows !! j = Some row -> keep1 (i + j) row = keep2 (i + j) row) ->
  keep_rows keep1 i rows = keep_rows keep2 i rows.
Proof.
  revert i. induction rows as [|row rows IH]; intros i Hext; simpl; [done|].
  pose proof (Hext 0 row eq_refl) as H0. rewrite Nat.add_0_r in H0. rewrite H0.
  rewrite (IH (S i)); [done|].
  intros j row' Hj. specialize (Hext (S j) row' Hj).
  by replace (i + S j) with (S i + j) in Hext by lia.
Qed.

Lemma keep_rows_omap keep i (rows : list Row) :
  keep_rows (fun _ => keep) i rows = omap keep rows.
Proof.
  revert i. induction rows as [|row rows IH]; intros i; simpl; [done|].
  rewrite IH. by destruct (keep row).
Qed.

Lemma keep_rows_Forall (P : Row -> Prop) keep i (rows : list Row) :
  (forall j row row', rows !! j = Some row -> keep (i + j) row = Some row' -> P row') ->
  Forall P (keep_rows keep i rows).
Proof.
  revert i. induction rows as [|row rows IH]; intros i HP; simpl; [done|].
  assert (Forall P (keep_rows keep (S i) rows)) as Hrest.
  { apply IH. intros j r r' Hj Hk. apply (HP (S j) r r' Hj).
    by replace (i + S j) with (S i + j) by lia. }
  destruct (keep i row) as [row'|] eqn:Hk; [|done].
  constructor; [|done]. apply (HP 0 row row' eq_refl). by rewrite Nat.add_0_r.
Qed.

Section backwards_facts.

Variables (step : nat -> Row -> outcome (option Row)) (inc : nat).

(** When no visit raises, the pass leaves what the visits leave: the row
    at position [i] of [n] is visited when [n - 1 - i] rows have been. *)
Lemma backwards_all_ok todo below k :
  (forall j row, todo !! j = Some row -> exists r, step (k + j * inc) row = Ok r) ->
  backwards step inc todo below k =
    (Ok tt,
     ([],
      keep_rows (fun i row => survivor (step (k + (length todo - 1 - i) * inc) row))
                0 (rev todo) ++ below,
      k + length todo * inc)).
Proof.
  revert below k. induction todo as [|row todo IH]; intros below k Hok.
  - simpl. by rewrite Nat.add_0_r.
  - cbn [backwards rev length].
    destruct (Hok 0 row eq_refl) as [r Hr]. rewrite Nat.add_0_r in Hr.
    rewrite keep_rows_app, length_rev. cbn [keep_rows Nat.add].
    replace (S (length todo) - 1 - length todo) with 0 by lia.
    rewrite Nat.add_0_r, Hr.
    assert (forall j row', todo !! j = Some row' ->
              exists r', step (k + inc + j * inc) row' = Ok r') as Hok'.
    { intros j row' Hj. destruct (Hok (S j) row' Hj) as [r' Hr'].
      exists r'. rewrite <- Hr'. f_equal. lia. }
    assert (keep_rows (fun i row0 => survivor (step (k + (S (length todo) - 1 - i) * inc) row0))
              0 (rev todo)
            = keep_rows (fun i row0 => survivor (step (k + inc + (length todo - 1 - i) * inc) row0))
              0 (rev todo)) as ->.
    { apply keep_rows_ext. intros j row' Hj.
      apply lookup_lt_Some in Hj. rewrite length_rev in Hj.
      do 2 f_equal. cbn [Nat.add].
      replace (S (length todo) - 1 - j) with (S (length todo - 1 - j)) by lia. lia. }
    replace (k + S (length todo) * inc) with (k + inc + length todo * inc) by lia.
    destruct r as [row'|]; cbn [survivor].
    + rewrite (IH (row' :: below) (k + inc) Hok'). by rewrite <- app_assoc.
    + rewrite (IH below (k + inc) Hok'). by rewrite app_nil_r.
Qed.

Lemma backwards_Ok_inv todo below k :
  fst (backwards step inc todo below k) = Ok tt ->
  forall j row, todo !! j = Some row -> exists r, step (k + j * inc) row = Ok r.
Proof.
  revert below k. induction todo as [|row todo IH]; intros below k Hok j row' Hj; [done|].
  cbn [backwards] in Hok.
  destruct (step k row) as [r|e] eqn:Hr; [|done].
  destruct j as [|j].
  - injection Hj as <-. exists r. by rewrite Nat.add_0_r.
  - assert (k + S j * inc = k + inc + j * inc) as -> by lia.
    destruct r; eapply IH; eauto.
Qed.

(** Whatever the outcome, the rows left come from the rows there were. *)
Lemma backwards_kept_from w todo below below0 k :
  (forall j row row', step j row = Ok (Some row') -> same_cells w row' row) ->
  rows_kept_from w below below0 ->
  rows_kept_from w
    (rev (backwards step inc todo below k).2.1.1 ++ (backwards step inc todo below k).2.1.2)
    (rev todo ++ below0).
Proof.
  intros Hstep. revert below below0 k.
  induction todo as [|row todo IH]; intros below below0 k Hbelow; [done|].
  cbn [backwards rev]. rewrite <- app_assoc. cbn [app].
  destruct (step k row) as [[row'|]|e] eqn:Hr.
  - apply IH. destruct Hbelow as (sub & Hsub & Hsame).
    exists (row :: sub). split; [by apply sublist_skip|].
    constructor; [|done]. by eapply Hstep.
  - apply IH. destruct Hbelow as (sub & Hsub & Hsame).
    exists sub. split; [by apply sublist_cons | done].
  - cbn [fst snd rev]. rewrite <- app_assoc. cbn [app].
    destruct Hbelow as (sub & Hsub & Hsame).
    exists (rev todo ++ row :: sub). split.
    + apply sublist_app; [done|]. by apply sublist_skip.
    + apply Forall2_app; [by apply Forall_Forall2_diag, Forall_true|].
      constructor; [done|done].
Qed.

Lemma backwards_Forall (P : Row -> Prop) todo below k :
  (forall j row row', P row -> step j row = Ok (Some row') -> P row') ->
  Forall P todo -> Forall P below ->
  Forall P (rev (backwards step inc todo below k).2.1.1
            ++ (backwards step inc todo below k).2.1.2).
Proof.
  intros Hstep. revert below k.
  induction todo as [|row todo IH]; intros below k Htodo Hbelow; [done|].
  apply Forall_cons in Htodo as [Hrow Htodo]. cbn [backwards].
  destruct (step k row) as [[row'|]|e] eqn:Hr.
  - apply IH; [done|]. constructor; [|done]. by eapply Hstep.
  - by apply IH.
  - cbn [fst snd]. apply Forall_app. split; [|done].
    apply Forall_rev. by constructor.
Qed.

Lemma backwards_no_clock todo below k :
  inc = 0 -> (backwards step inc todo below k).2.2 = k.
Proof.
  intros ->. revert below k. induction todo as [|row todo IH]; intros below k; [done|].
  cbn [backwards]. destruct (step k row) as [[row'|]|e]; cbn [snd].
  - rewrite IH. lia.
  - rewrite IH. lia.
  - lia.
Qed.

End backwards_facts.

Lemma backwards_sublist step inc todo below below0 k :
  (forall j row row', step j row = Ok (Some row') -> row' = row) ->
  sublist below below0 ->
  sublist (rev (backwards step inc todo below k).2.1.1 ++ (backwards step inc todo below k).2.1.2)
          (rev todo ++ below0).
Proof.
  intros Hstep. revert below below0 k.
  induction todo as [|row todo IH]; intros below below0 k Hbelow; [done|].
  cbn [backwards rev]. rewrite <- app_assoc. cbn [app].
  destruct (step k row) as [[row'|]|e] eqn:Hr.
  - apply IH. apply Hstep in Hr as ->. by apply sublist_skip.
  - apply IH. by apply sublist_cons.
  - cbn [fst snd rev]. rewrite <- app_assoc. cbn [app].
    apply sublist_app; [done|]. by apply sublist_skip.
Qed.

Lemma forwards_Forall2 (R : Row -> Row -> Prop) step (rows : list Row) :
  (forall row row', step row = Ok row' -> R row' row) ->
  (forall row, R row row) ->
  Forall2 R (forwards step rows).2 rows.
Proof.
  intros Hstep Hrefl. induction rows as [|row rows IH]; [constructor|].
  cbn [forwards]. destruct (step row) as [row'|e] eqn:Hr.
  - destruct (forwards step rows) as [o rows'']. constructor; [by apply Hstep | done].
  - apply Forall_Forall2_diag, Forall_true. done.
Qed.

(** *** Cells of a rewritten row *)

Lemma max_column_row (ws : Worksheet) row : row ∈ ws -> length row <= max_column ws.
Proof.
  intros Hin. unfold max_column.
  assert (length row <= max_list (length <$> ws)); [|lia].
  apply max_list_elem_of_le, list_elem_of_fmap. by exists row.
Qed.

Lemma max_column_bound (ws : Worksheet) w :
  1 <= w -> Forall (fun row => length row <= w) ws -> max_column ws <= w.
Proof.
  intros Hw Hall. unfold max_column.
  assert (max_list (length <$> ws) <= w); [|lia].
  induction Hall as [|row rows Hrow _ IH]; csimpl; lia.
Qed.

Lemma with_cell_length w v row : length row <= w -> length (with_cell w v row) = S w.
Proof. intros Hw. rewrite with_cell_app, length_app, pad_length by done. simpl. lia. Qed.

Lemma with_cell_same_cells w v row : same_cells w (with_cell w v row) row.
Proof.
  intros c Hc. unfold cell_of, with_cell.
  rewrite list_lookup_insert_ne by lia.
  rewrite pad_lookup by lia. done.
Qed.

Lemma with_cell_lookup w v row : with_cell w v row !! w = Some v.
Proof.
  unfold with_cell. apply list_lookup_insert_eq. rewrite pad_length. lia.
Qed.

Lemma with_cell_lookup_ne w v row i :
  i < w -> default VNone (with_cell w v row !! i) = default VNone (row !! i).
Proof.
  intros Hi. unfold with_cell. rewrite list_lookup_insert_ne by lia.
  by rewrite pad_lookup by lia.
Qed.

Lemma same_cells_refl w row : same_cells w row row.
Proof. by intros c Hc. Qed.

(** The header after a column has been appended. *)
Lemma appended_header (ws : Worksheet) v (rows' : list Row) :
  Forall (fun row => length row <= S (max_column ws)) rows' ->
  row_values (with_cell (max_column ws) v (sheet_row ws 1) :: rows') 1
  = row_values ws 1 ++ [v].
Proof.
  intros Hrows.
  assert (length (sheet_row ws 1) <= max_column ws) as Hhdr.
  { destruct ws as [|hdr data]; [simpl; lia|]. apply max_column_header. }
  assert (max_column (with_cell (max_column ws) v (sheet_row ws 1) :: rows') = S (max_column ws)) as Hw.
  { apply Nat.le_antisymm.
    - apply max_column_bound; [lia|]. constructor; [|done].
      by rewrite with_cell_length.
    - etransitivity; [|apply max_column_header]. by rewrite with_cell_length. }
  unfold row_values at 1. rewrite Hw, sheet_row_header.
  unfold pad at 1. rewrite with_cell_length, Nat.sub_diag, app_nil_r by done.
  by rewrite with_cell_app.
Qed.

(** *** get_address_changes *)

Lemma get_address_changes_missing execute hdr (data : list Row) k :
  column (hdr :: data) "CPR" = None ->
  get_address_changes execute (State (hdr :: data) k)
  = (Raise ValueError,
     State (with_cell (max_column (hdr :: data)) (VStr "Adresseændringsdato") hdr :: data) k).
Proof.
  unfold column. intros Hc.
  unfold get_address_changes, bind, get_sheet, update_sheet, lift, index; cbn [sheet ticks].
  rewrite Hc, row_values_header_length, Nat.add_1_r.
  by rewrite set_cell_header.
Qed.

Lemma get_address_changes_run execute hdr (data : list Row) k c :
  column (hdr :: data) "CPR" = Some c ->
  get_address_changes execute (State (hdr :: data) k) =
    let '(o, rows') := forwards (enrich_step execute c (max_column (hdr :: data))) data in
    (o, State (with_cell (max_column (hdr :: data)) (VStr "Adresseændringsdato") hdr :: rows') k).
Proof.
  unfold column. intros Hc.
  unfold get_address_changes, bind at 1 2 3 4, get_sheet at 1 2, update_sheet at 1, lift at 1, index;
    cbn [sheet ticks].
  rewrite Hc, row_values_header_length, (Nat.add_1_r (max_column (hdr :: data))).
  rewrite set_cell_header, max_row_cons.
  unfold range. replace (S (length data) + 1 - 2) with (length data) by lia.
  set (w := max_column (hdr :: data)). set (hdr' := with_cell w _ hdr).
  match goal with
  | |- for_each _ ?body _ = _ =>
      pose proof (for_each_forwards hdr' body (enrich_step execute c w)) as Hpass
  end.
  apply (Hpass) with (pre := []). clear Hpass. intros pre row post j.
  unfold bind, get_sheet, lift, update_sheet, ret; cbn [sheet ticks].
  unfold cell_value. rewrite sheet_row_data. unfold enrich_step.
  destruct (look_up_address_change _) as [[d|]|e]; cbn [sheet ticks]; [|done..].
  by rewrite set_cell_data.
Qed.

(** Whatever the outcome, the sheet after [get_address_changes] is the
    header with the new cell and the rows with their old cells. *)
Lemma get_address_changes_shape execute (ws : Worksheet) k :
  exists rows',
    snd (get_address_changes execute (State ws k))
    = State (with_cell (max_column ws) (VStr "Adresseændringsdato") (sheet_row ws 1) :: rows') k
    /\ Forall2 (same_cells (max_column ws)) rows' (data_rows ws)
    /\ Forall (fun row => length row <= S (max_column ws)) rows'.
Proof.
  destruct ws as [|hdr data].
  { exists []. by repeat split. }
  assert (Forall (fun row => length row <= max_column (hdr :: data)) data) as Hdata.
  { apply Forall_forall. intros row Hrow. apply max_column_row. by right. }
  rewrite sheet_row_header. unfold data_rows; cbn [drop].
  destruct (column (hdr :: data) "CPR") as [c|] eqn:Hc.
  - rewrite (get_address_changes_run _ _ _ _ c Hc).
    pose proof (forwards_Forall2 (same_cells (max_column (hdr :: data)))
                  (enrich_step execute c (max_column (hdr :: data))) data) as Hsame.
    pose proof (forwards_Forall2
                  (fun row' row => length row <= max_column (hdr :: data)
                                   -> length row' <= S (max_column (hdr :: data)))
                  (enrich_step execute c (max_column (hdr :: data))) data) as Hlen.
    destruct (forwards _ data) as [o rows']. exists rows'. cbn [snd] in *.
    split; [done|]. split.
    + apply Hsame; [|apply same_cells_refl].
      intros row row'. unfold enrich_step.
      destruct (look_up_address_change _) as [[d|]|e]; intros [= <-];
        [apply with_cell_same_cells | apply same_cells_refl].
    + assert (Forall2 (fun row' row => length row <= max_column (hdr :: data)
                                       -> length row' <= S (max_column (hdr :: data)))
                rows' data) as H2.
      { apply Hlen; [|lia]. intros row row'. unfold enrich_step.
        destruct (look_up_address_change _) as [[d|]|e]; intros [= <-] Hl;
          [rewrite with_cell_length; lia | lia]. }
      set (w := max_column (hdr :: data)) in *. clearbody w.
      clear -H2 Hdata. revert Hdata. induction H2; intros Hdata; [done|].
      apply Forall_cons in Hdata as [? ?]. constructor; auto.
  - rewrite (get_address_changes_missing _ _ _ _ Hc). exists data. cbn [snd].
    split; [done|]. split.
    + apply Forall_Forall2_diag, Forall_true, same_cells_refl.
    + eapply Forall_impl; [done|]. simpl. lia.
Qed.

(** *** calculate_difference *)

Lemma calculate_difference_missing hdr (data : list Row) k :
  column (hdr :: data) "Udbetalingsdato" = None
  \/ column (hdr :: data) "Adresseændringsdato" = None ->
  calculate_difference (State (hdr :: data) k)
  = (Raise ValueError,
     State (with_cell (max_column (hdr :: data)) (VStr "Difference") hdr :: data) k).
Proof.
  unfold column. intros Hmissing.
  unfold calculate_difference, bind, get_sheet, update_sheet, lift, index; cbn [sheet ticks].
  rewrite row_values_header_length, (Nat.add_1_r (max_column (hdr :: data))).
  rewrite set_cell_header.
  destruct (list_index (VStr "Udbetalingsdato") _) as [u|]; [|done].
  destruct (list_index (VStr "Adresseændringsdato") _) as [a|]; [|done].
  by destruct Hmissing.
Qed.

Lemma calculate_difference_run hdr (data : list Row) k u a :
  column (hdr :: data) "Udbetalingsdato" = Some u ->
  column (hdr :: data) "Adresseændringsdato" = Some a ->
  calculate_difference (State (hdr :: data) k) =
    let '(o, (todo', below', k')) :=
      backwards (fun _ => difference_step u a (max_column (hdr :: data))) 0 (rev data) [] k in
    (o, State (with_cell (max_column (hdr :: data)) (VStr "Difference") hdr
               :: rev todo' ++ below') k').
Proof.
  unfold column. intros Hu Ha.
  pose proof (list_index_lt _ _ _ Hu) as Hul.
  pose proof (list_index_lt _ _ _ Ha) as Hal.
  rewrite row_values_header_length in Hul, Hal.
  assert (length hdr <= max_column (hdr :: data)) as Hhdr by apply max_column_header.
  unfold calculate_difference, bind at 1 2 3 4 5, get_sheet at 1 2, update_sheet at 1,
    lift at 1 2, index; cbn [sheet ticks].
  rewrite Hu, Ha, row_values_header_length, (Nat.add_1_r (max_column (hdr :: data))).
  rewrite set_cell_header, max_row_cons.
  set (w := max_column (hdr :: data)) in *. set (hdr' := with_cell w _ hdr).
  match goal with
  | |- for_each _ ?body _ = _ =>
      pose proof (for_each_backwards hdr' 0 body (fun _ => difference_step u a w)) as Hpass
  end.
  rewrite <- (rev_involutive data) at 2. rewrite <- (length_rev data).
  rewrite <- (app_nil_r (rev (rev data))).
  apply Hpass. clear Hpass. intros pre row post j.
  assert (S w <= max_column (hdr' :: pre ++ row :: post)) as Hw.
  { etransitivity; [|apply max_column_header]. unfold hdr'. by rewrite with_cell_length. }
  unfold bind, get_sheet, lift, update_sheet, ret; cbn [sheet ticks].
  rewrite !getitem_row_values by lia. rewrite sheet_row_data, Nat.add_0_r.
  unfold difference_step, day_difference.
  destruct (date_of _) as [d|e]; [|done].
  destruct (minus_date _ d) as [diff|e]; [|done].
  destruct (days diff <? 89)%Z; cbn [sheet ticks].
  - by rewrite delete_rows_data.
  - by rewrite set_cell_data.
Qed.

(** Whatever the outcome, the sheet after [calculate_difference] is the
    header with the new cell and some of the rows, in their order, the
    cells they had unchanged. *)
Lemma calculate_difference_shape (ws : Worksheet) k :
  exists rows',
    snd (calculate_difference (State ws k))
    = State (with_cell (max_column ws) (VStr "Difference") (sheet_row ws 1) :: rows') k
    /\ rows_kept_from (max_column ws) rows' (data_rows ws)
    /\ Forall (fun row => length row <= S (max_column ws)) rows'.
Proof.
  destruct ws as [|hdr data].
  { exists []. repeat split; [|done]. exists []. by split. }
  assert (Forall (fun row => length row <= max_column (hdr :: data)) data) as Hdata.
  { apply Forall_forall. intros row Hrow. apply max_column_row. by right. }
  rewrite sheet_row_header. unfold data_rows; cbn [drop].
  destruct (column (hdr :: data) "Udbetalingsdato") as [u|] eqn:Hu.
  2:{ rewrite calculate_difference_missing by by left. exists data. cbn [snd].
      split; [done|]. split.
      - exists data. split; [done|]. apply Forall_Forall2_diag, Forall_true, same_cells_refl.
      - eapply Forall_impl; [done|]. simpl. lia. }
  destruct (column (hdr :: data) "Adresseændringsdato") as [a|] eqn:Ha.
  2:{ rewrite calculate_difference_missing by by right. exists data. cbn [snd].
      split; [done|]. split.
      - exists data. split; [done|]. apply Forall_Forall2_diag, Forall_true, same_cells_refl.
      - eapply Forall_impl; [done|]. simpl. lia. }
  rewrite (calculate_difference_run _ _ _ u a Hu Ha).
  set (w := max_column (hdr :: data)) in *.
  pose proof (backwards_kept_from (fun _ => difference_step u a w) 0 w (rev data) [] [] k) as Hkept.
  pose proof (backwards_Forall (fun _ => difference_step u a w) 0
                (fun row => length row <= S w) (rev data) [] k) as Hlen.
  pose proof (backwards_no_clock (fun _ => difference_step u a w) 0 (rev data) [] k eq_refl) as Hk.
  destruct (backwards _ 0 (rev data) [] k) as [o [[todo' below'] k']].
  cbn [fst snd] in *. subst k'. exists (rev todo' ++ below').
  rewrite rev_involutive, app_nil_r in Hkept.
  split; [done|]. split.
  - apply Hkept.
    + intros _ row row'. unfold difference_step.
      destruct (day_difference u a row) as [d|e]; [|done].
      destruct (d <? 89)%Z; intros [= <-]. apply with_cell_same_cells.
    + exists []. by split.
  - apply Hlen; [| |done].
    + intros _ row row' Hrow. unfold difference_step.
      destruct (day_difference u a row) as [d|e]; [|done].
      destruct (d <? 89)%Z; intros [= <-].
      unfold with_cell. rewrite length_insert, pad_length. lia.
    + apply Forall_rev. eapply Forall_impl; [done|]. simpl. lia.
Qed.

(** ** The row filter *)

Lemma delete_condition_typed aftaletype rim dato t :
  aftaletype = VNone \/ (exists s, aftaletype = VStr s) ->
  delete_condition aftaletype rim (VDateTime dato) t = Ok (disqualified t aftaletype rim dato).
Proof.
  intros Htext. unfold delete_condition, disqualified, py_eq. cbn [datetime_minus].
  rewrite days_lt_90_too_recent.
  assert (truthy aftaletype = non_null_non_empty aftaletype) as ->.
  { by destruct Htext as [->|[s ->]]. }
  destruct (non_null_non_empty aftaletype); [done|].
  by destruct (bool_decide (rim = VStr "IN")).
Qed.

Lemma filter_step_typed u a r t row :
  typed_row u a row ->
  filter_step u a r t row = Ok (if row_disqualified u a r t row then None else Some row).
Proof.
  intros [[dato Hdato] Htext]. unfold filter_step, row_disqualified, disbursement_date.
  rewrite Hdato, delete_condition_typed by done.
  by destruct (disqualified _ _ _ _).
Qed.

Lemma row_disqualified_false u a r now row :
  row_disqualified u a r now row = false <->
  non_null_non_empty (cell_of row (a + 1)) = false
  /\ cell_of row (r + 1) <> VStr "IN"
  /\ (90 * microseconds_per_day <= instant now - instant (disbursement_date u row))%Z.
Proof.
  unfold row_disqualified, disqualified, too_recent.
  rewrite !orb_false_iff, bool_decide_eq_false, Z.ltb_ge. tauto.
Qed.

Lemma rev_lookup_Some {A} (l : list A) j x :
  rev l !! j = Some x -> j < length l /\ l !! (length l - 1 - j) = Some x.
Proof.
  intros Hj. assert (j < length l) as Hlt.
  { apply lookup_lt_Some in Hj. by rewrite length_rev in Hj. }
  split; [done|]. rewrite rev_alt in Hj. change (rev_append l []) with (reverse l) in Hj.
  rewrite reverse_lookup in Hj by done.
  by replace (length l - 1 - j) with (length l - S j) by lia.
Qed.

(** When no row raises, each row is judged once, against the reading taken
    at its visit: the row at position [i] of [n] against reading
    [k + (n - 1 - i)]. *)
Lemma read_excel_file_all_ok clock hdr (data : list Row) k c b u a r :
  column (hdr :: data) "CPR" = Some c ->
  column (hdr :: data) "Beløb" = Some b ->
  column (hdr :: data) "Udbetalingsdato" = Some u ->
  column (hdr :: data) "Aftale type" = Some a ->
  column (hdr :: data) "RIM aftaletype" = Some r ->
  (forall i row, data !! i = Some row ->
     exists o, filter_step u a r (clock (k + (length data - 1 - i))) row = Ok o) ->
  read_excel_file clock (State (hdr :: data) k)
  = (Ok tt,
     State (hdr :: keep_rows (fun i row =>
                      survivor (filter_step u a r (clock (k + (length data - 1 - i))) row))
                    0 data)
           (k + length data)).
Proof.
  intros Hc Hb Hu Ha Hr Hok.
  rewrite (read_excel_file_run _ _ _ _ c b u a r) by done.
  rewrite backwards_all_ok.
  - rewrite rev_involutive, app_nil_r, length_rev. f_equal. f_equal.
    + f_equal. apply keep_rows_ext. intros j row Hj. by rewrite Nat.mul_1_r.
    + lia.
  - intros j row Hj. apply rev_lookup_Some in Hj as [Hlt Hj].
    destruct (Hok _ _ Hj) as [o Ho]. exists o. rewrite <- Ho. do 2 f_equal. lia.
Qed.

(** Decides [typed_row] on the rows of a concrete sheet. *)
Ltac typed_rows :=
  repeat first [apply List.Forall_nil | apply List.Forall_cons];
  (split; [eexists; reflexivity | first [left; reflexivity | right; eexists; reflexivity]]).

(** C3.  On a sheet with the five columns whose rows are typed as the data
    model says, [read_excel_file] raises nothing and keeps a row exactly
    when none of the three tests disqualifies it: the agreement type is
    neither null nor empty, the special agreement type is "IN", or the time
    from the disbursement date to the reading of the clock taken at the
    visit of the row is strictly less than 90 days.  So every row left has
    an agreement type null or empty, a special agreement type other than
    "IN", and a disbursement date at least 90 days before a reading of the
    clock taken during the run. *)
Theorem read_excel_file_keeps_iff_qualified clock hdr (data : list Row) k c b u a r :
  column (hdr :: data) "CPR" = Some c ->
  column (hdr :: data) "Beløb" = Some b ->
  column (hdr :: data) "Udbetalingsdato" = Some u ->
  column (hdr :: data) "Aftale type" = Some a ->
  column (hdr :: data) "RIM aftaletype" = Some r ->
  Forall (typed_row u a) data ->
  read_excel_file clock (State (hdr :: data) k)
  = (Ok tt,
     State (hdr :: keep_rows (fun i row =>
                      if row_disqualified u a r (clock (k + (length data - 1 - i))) row
                      then None else Some row)
                    0 data)
           (k + length data))
  /\ Forall (fun row =>
       exists j, k <= j < k + length data
         /\ non_null_non_empty (cell_of row (a + 1)) = false
         /\ cell_of row (r + 1) <> VStr "IN"
         /\ (90 * microseconds_per_day
             <= instant (clock j) - instant (disbursement_date u row))%Z)
     (data_rows (sheet (snd (read_excel_file clock (State (hdr :: data) k))))).
Proof.
  intros Hc Hb Hu Ha Hr Htyped.
  assert (forall i row, data !! i = Some row -> typed_row u a row) as Ht.
  { intros i row Hi. by eapply Forall_lookup_1. }
  assert (read_excel_file clock (State (hdr :: data) k)
          = (Ok tt,
             State (hdr :: keep_rows (fun i row =>
                      if row_disqualified u a r (clock (k + (length data - 1 - i))) row
                      then None else Some row) 0 data)
                   (k + length data))) as Hrun.
  { rewrite (read_excel_file_all_ok _ _ _ _ c b u a r) by
      (try done; intros i row Hi; rewrite filter_step_typed; eauto).
    do 3 f_equal. apply keep_rows_ext. intros j row Hj. cbn [Nat.add].
    rewrite filter_step_typed by eauto. done. }
  split; [done|]. rewrite Hrun. cbn [snd sheet data_rows drop].
  apply keep_rows_Forall. intros j row row' Hj. cbn [Nat.add].
  destruct (row_disqualified _ _ _ _ row) eqn:Hq; intros [= <-].
  apply lookup_lt_Some in Hj.
  exists (k + (length data - 1 - j)). split; [lia|].
  by apply row_disqualified_false in Hq.
Qed.

Lemma read_excel_file_keeps_iff_qualified_witness :
  read_excel_file clock_june (State sheet_five_rows 0)
  = (Ok tt,
     State [header5;
            [VStr "P1"; VInt 1000; VDateTime (midnight (Date 2024 1 1)); VNone; VNone];
            [VStr "P5"; VInt 1000; VDateTime (midnight (Date 2024 1 2)); VStr ""; VStr ""]]
           5).
Proof.
  refine (proj1 (read_excel_file_keeps_iff_qualified clock_june header5
                   (drop 1 sheet_five_rows) 0 0 1 2 3 4 _ _ _ _ _ _));
    try reflexivity.
  typed_rows.
Defined.

(** C6, as the code has it.  [read_excel_file] reads the clock once for
    each data row, at the visit of the row, so a run over [n] rows takes [n]
    readings; when these readings are all the same timestamp, the sheet it
    leaves is the sheet filtered against that timestamp. *)
Theorem read_excel_file_reads_clock_per_row clock now hdr (data : list Row) k c b u a r :
  column (hdr :: data) "CPR" = Some c ->
  column (hdr :: data) "Beløb" = Some b ->
  column (hdr :: data) "Udbetalingsdato" = Some u ->
  column (hdr :: data) "Aftale type" = Some a ->
  column (hdr :: data) "RIM aftaletype" = Some r ->
  Forall (typed_row u a) data ->
  (forall j, k <= j < k + length data -> clock j = now) ->
  read_excel_file clock (State (hdr :: data) k)
  = (Ok tt, State (applyEligibilityFilters u a r now (hdr :: data)) (k + length data)).
Proof.
  intros Hc Hb Hu Ha Hr Htyped Hnow.
  assert (forall i row, data !! i = Some row -> typed_row u a row) as Ht.
  { intros i row Hi. by eapply Forall_lookup_1. }
  rewrite (read_excel_file_all_ok _ _ _ _ c b u a r) by
    (try done; intros i row Hi; rewrite filter_step_typed; eauto).
  unfold applyEligibilityFilters, data_rows.
  change (take 1 (hdr :: data)) with [hdr]. change (drop 1 (hdr :: data)) with data.
  cbn [app]. do 3 f_equal.
  transitivity (keep_rows (fun _ row => if row_disqualified u a r now row then None else Some row)
                          0 data).
  - apply keep_rows_ext. intros j row Hj. cbn [Nat.add].
    rewrite filter_step_typed by eauto.
    apply lookup_lt_Some in Hj. rewrite Hnow by lia. reflexivity.
  - generalize 0. clear. induction data as [|row data IH]; intros i; [done|].
    cbn [keep_rows List.filter]. rewrite IH.
    by destruct (row_disqualified u a r now row).
Qed.

Lemma read_excel_file_reads_clock_per_row_witness :
  read_excel_file clock_june (State sheet_five_rows 0)
  = (Ok tt,
     State (applyEligibilityFilters 2 3 4 (midnight (Date 2024 6 1)) sheet_five_rows) 5).
Proof.
  refine (read_excel_file_reads_clock_per_row clock_june (midnight (Date 2024 6 1)) header5
            (drop 1 sheet_five_rows) 0 0 1 2 3 4 _ _ _ _ _ _ _);
    try reflexivity.
  typed_rows.
Defined.

(** C6, as the specification has it, fails: with a clock that passes
    midnight between the visits of two rows paid out at the same time, the
    row visited first is deleted and the other stays, the clock is read
    twice, and no single timestamp gives that result. *)
Lemma read_excel_file_single_now_counterexample :
  read_excel_file clock_over_midnight (State sheet_two_rows 0)
  = (Ok tt, State [header5; row_P1] 2)
  /\ forall now, applyEligibilityFilters 2 3 4 now sheet_two_rows <> [header5; row_P1].
Proof.
  split; [vm_compute; reflexivity|].
  intros now. unfold applyEligibilityFilters, sheet_two_rows, data_rows.
  change (take 1 [header5; row_P1; row_P2]) with [header5].
  change (drop 1 [header5; row_P1; row_P2]) with [row_P1; row_P2].
  cbn [app List.filter].
  assert (row_disqualified 2 3 4 now row_P2 = row_disqualified 2 3 4 now row_P1) as ->
    by reflexivity.
  destruct (row_disqualified 2 3 4 now row_P1); cbn [negb]; discriminate.
Qed.

(** C8.  When one of the five columns is missing from the header,
    [read_excel_file] raises the [ValueError] of [columns.index], and
    [process] stops there with it: no row has been deleted, the clock has
    not been read, and the two later steps have not run. *)
Theorem read_excel_file_missing_column clock execute (ws : Worksheet) k name :
  name ∈ required_columns ->
  column ws name = None ->
  read_excel_file clock (State ws k) = (Raise ValueError, State ws k)
  /\ process clock execute (State ws k) = (Raise ValueError, State ws k).
Proof.
  intros Hname Hnone.
  pose proof (read_excel_file_missing clock ws k name Hname Hnone) as Hraise.
  split; [done|].
  unfold process. unfold bind at 1. by rewrite Hraise.
Qed.

Lemma read_excel_file_missing_column_witness :
  read_excel_file clock_june
    (State [[VStr "CPR"; VStr "Beløb"; VStr "Udbetalingsdato"; VStr "Aftale type"];
            [VStr "P1"; VInt 1000; VDateTime (midnight (Date 2024 1 1)); VStr "X"]] 0)
  = (Raise ValueError,
     State [[VStr "CPR"; VStr "Beløb"; VStr "Udbetalingsdato"; VStr "Aftale type"];
            [VStr "P1"; VInt 1000; VDateTime (midnight (Date 2024 1 1)); VStr "X"]] 0)
  /\ process clock_june (history_since (Date 2024 5 1))
       (State [[VStr "CPR"; VStr "Beløb"; VStr "Udbetalingsdato"; VStr "Aftale type"];
               [VStr "P1"; VInt 1000; VDateTime (midnight (Date 2024 1 1)); VStr "X"]] 0)
     = (Raise ValueError,
        State [[VStr "CPR"; VStr "Beløb"; VStr "Udbetalingsdato"; VStr "Aftale type"];
               [VStr "P1"; VInt 1000; VDateTime (midnight (Date 2024 1 1)); VStr "X"]] 0).
Proof.
  apply (read_excel_file_missing_column clock_june _ _ 0 "RIM aftaletype").
  - unfold required_columns. rewrite !elem_of_cons. tauto.
  - reflexivity.
Defined.

(** ** The day difference *)

Lemma day_difference_Ok u a row d :
  day_difference u a row = Ok d ->
  exists change dato,
    default VNone (row !! a) = VDate change
    /\ default VNone (row !! u) = VDateTime dato
    /\ d = (toordinal change - toordinal (dt_date dato))%Z.
Proof.
  unfold day_difference.
  destruct (default VNone (row !! u)) as [| | | |dato]; try done. cbn [date_of].
  destruct (default VNone (row !! a)) as [| | |change|]; try done. cbn [minus_date].
  intros [= <-]. exists change, dato. repeat split.
  exact (date_sub_days change (dt_date dato)).
Qed.

Lemma persisted_Some u a w row row' :
  persisted u a w row = Some row' ->
  exists d, day_difference u a row = Ok d /\ (89 <= d)%Z /\ row' = with_cell w (VInt d) row.
Proof.
  unfold persisted, difference_step.
  destruct (day_difference u a row) as [d|e]; [|done].
  destruct (Z.ltb_spec d 89); [done|]. intros [= <-]. by exists d.
Qed.

Lemma calculate_difference_all_ok hdr (data : list Row) k u a :
  column (hdr :: data) "Udbetalingsdato" = Some u ->
  column (hdr :: data) "Adresseændringsdato" = Some a ->
  Forall (fun row => exists d, day_difference u a row = Ok d) data ->
  calculate_difference (State (hdr :: data) k)
  = (Ok tt,
     State (with_cell (max_column (hdr :: data)) (VStr "Difference") hdr
            :: omap (persisted u a (max_column (hdr :: data))) data) k).
Proof.
  intros Hu Ha Hok. rewrite (calculate_difference_run _ _ _ u a Hu Ha).
  rewrite backwards_all_ok.
  - rewrite rev_involutive, app_nil_r, keep_rows_omap, Nat.mul_0_r, Nat.add_0_r. done.
  - intros j row Hj. apply rev_lookup_Some in Hj as [_ Hj].
    destruct (Forall_lookup_1 _ _ _ _ Hok Hj) as [d Hd].
    unfold difference_step. rewrite Hd. destruct (d <? 89)%Z; eauto.
Qed.

Lemma calculate_difference_Ok_inv (ws : Worksheet) k :
  fst (calculate_difference (State ws k)) = Ok tt ->
  exists hdr data u a,
    ws = hdr :: data
    /\ column ws "Udbetalingsdato" = Some u
    /\ column ws "Adresseændringsdato" = Some a
    /\ Forall (fun row => exists d, day_difference u a row = Ok d) data.
Proof.
  destruct ws as [|hdr data]; [done|]. intros Hok.
  destruct (column (hdr :: data) "Udbetalingsdato") as [u|] eqn:Hu.
  2:{ by rewrite calculate_difference_missing in Hok by by left. }
  destruct (column (hdr :: data) "Adresseændringsdato") as [a|] eqn:Ha.
  2:{ by rewrite calculate_difference_missing in Hok by by right. }
  exists hdr, data, u, a. repeat split; try done.
  rewrite (calculate_difference_run _ _ _ u a Hu Ha) in Hok.
  pose proof (backwards_Ok_inv (fun _ => difference_step u a (max_column (hdr :: data))) 0
                (rev data) [] k) as Hinv.
  destruct (backwards _ 0 (rev data) [] k) as [o [[todo' below'] k']].
  cbn [fst] in *. specialize (Hinv Hok).
  rewrite <- (rev_involutive data). apply Forall_rev, Forall_lookup_2.
  intros j row Hj. destruct (Hinv j row Hj) as [r Hr].
  unfold difference_step in Hr. destruct (day_difference u a row) as [d|e]; [|done].
  by exists d.
Qed.

(** C2.  When [calculate_difference] returns, every row had a day
    difference, the rows left are the rows whose difference is at least 89,
    in their order and each with its difference written in the new column,
    and in every row left the difference is an integer, at least 89, equal to
    the address change date minus the date of the disbursement datetime in
    whole days. *)
Theorem calculate_difference_rows_left (ws : Worksheet) k s' :
  calculate_difference (State ws k) = (Ok tt, s') ->
  exists u a,
    column ws "Udbetalingsdato" = Some u
    /\ column ws "Adresseændringsdato" = Some a
    /\ Forall (fun row => exists d, day_difference u a row = Ok d) (data_rows ws)
    /\ data_rows (sheet s') = omap (persisted u a (max_column ws)) (data_rows ws)
    /\ Forall (fun row =>
         exists d change dato,
           cell_of row (max_column ws + 1) = VInt d
           /\ (89 <= d)%Z
           /\ cell_of row (a + 1) = VDate change
           /\ cell_of row (u + 1) = VDateTime dato
           /\ d = (toordinal change - toordinal (dt_date dato))%Z)
       (data_rows (sheet s')).
Proof.
  intros Hrun.
  destruct (calculate_difference_Ok_inv ws k) as (hdr & data & u & a & -> & Hu & Ha & Hok).
  { by rewrite Hrun. }
  exists u, a. rewrite (calculate_difference_all_ok _ _ _ u a Hu Ha Hok) in Hrun.
  injection Hrun as <-. cbn [sheet]. unfold data_rows.
  change (drop 1 (hdr :: data)) with data.
  change (drop 1 (?h :: ?t)) with t.
  repeat split; try done.
  pose proof (list_index_lt _ _ _ Hu) as Hul. pose proof (list_index_lt _ _ _ Ha) as Hal.
  rewrite row_values_header_length in Hul, Hal.
  apply Forall_forall. intros row' Hrow'.
  apply list_elem_of_omap in Hrow' as (row & _ & Hrow).
  apply persisted_Some in Hrow as (d & Hd & Hge & ->).
  apply day_difference_Ok in Hd as (change & dato & Hchange & Hdato & ->).
  eexists _, change, dato. unfold cell_of. rewrite !Nat.add_sub.
  rewrite with_cell_lookup, !with_cell_lookup_ne by done. done.
Qed.

Lemma calculate_difference_rows_left_witness :
  exists u a,
    column sheet_enriched "Udbetalingsdato" = Some u
    /\ column sheet_enriched "Adresseændringsdato" = Some a
    /\ Forall (fun row => exists d, day_difference u a row = Ok d) (data_rows sheet_enriched)
    /\ data_rows
         [header6 ++ [VStr "Difference"];
          [VStr "P1"; VInt 1000; VDateTime (midnight (Date 2024 1 1)); VNone; VNone;
           VDate (Date 2024 5 1); VInt 121];
          [VStr "P3"; VInt 1000; VDateTime (midnight (Date 2024 1 1)); VNone; VNone;
           VDate (Date 2024 3 30); VInt 89]]
       = omap (persisted u a (max_column sheet_enriched)) (data_rows sheet_enriched)
    /\ Forall (fun row =>
         exists d change dato,
           cell_of row (max_column sheet_enriched + 1) = VInt d
           /\ (89 <= d)%Z
           /\ cell_of row (a + 1) = VDate change
           /\ cell_of row (u + 1) = VDateTime dato
           /\ d = (toordinal change - toordinal (dt_date dato))%Z)
       (data_rows
          [header6 ++ [VStr "Difference"];
           [VStr "P1"; VInt 1000; VDateTime (midnight (Date 2024 1 1)); VNone; VNone;
            VDate (Date 2024 5 1); VInt 121];
           [VStr "P3"; VInt 1000; VDateTime (midnight (Date 2024 1 1)); VNone; VNone;
            VDate (Date 2024 3 30); VInt 89]]).
Proof.
  apply (calculate_difference_rows_left sheet_enriched 0
           (State [header6 ++ [VStr "Difference"];
                   [VStr "P1"; VInt 1000; VDateTime (midnight (Date 2024 1 1)); VNone; VNone;
                    VDate (Date 2024 5 1); VInt 121];
                   [VStr "P3"; VInt 1000; VDateTime (midnight (Date 2024 1 1)); VNone; VNone;
                    VDate (Date 2024 3 30); VInt 89]] 0)).
  vm_compute. reflexivity.
Defined.

(** C4 fails on the code: a row whose address change date was never set is
    not deleted.  When a data row has no address change date,
    [calculate_difference] raises, whatever the other rows are. *)
Theorem calculate_difference_unset_date_raises (ws : Worksheet) k a row :
  column ws "Adresseændringsdato" = Some a ->
  row ∈ data_rows ws ->
  cell_of row (a + 1) = VNone ->
  exists e, fst (calculate_difference (State ws k)) = Raise e.
Proof.
  intros Ha Hrow Hnone.
  destruct (fst (calculate_difference (State ws k))) as [[]|e] eqn:Hrun; [|by exists e].
  exfalso.
  destruct (calculate_difference_Ok_inv ws k Hrun) as (hdr & data & u & a' & -> & Hu & Ha' & Hok).
  assert (a' = a) as -> by congruence.
  change (data_rows (hdr :: data)) with data in Hrow.
  apply (proj1 (Forall_forall _ _) Hok) in Hrow as [d Hd].
  apply day_difference_Ok in Hd as (change & dato & Hchange & _).
  unfold cell_of in Hnone. rewrite Nat.add_sub in Hnone. congruence.
Qed.

Lemma calculate_difference_unset_date_raises_witness :
  exists e, fst (calculate_difference (State sheet_unset_date 0)) = Raise e.
Proof.
  apply (calculate_difference_unset_date_raises sheet_unset_date 0 5
           [VStr "P4"; VInt 1000; VDateTime (midnight (Date 2024 1 1)); VNone; VNone]).
  - reflexivity.
  - unfold data_rows, sheet_unset_date. cbn [drop]. rewrite !elem_of_cons. tauto.
  - reflexivity.
Defined.

(** On that sheet the subtraction of line 185 raises [TypeError] at the row
    without a date, the last one and so the first visited: the header of the
    new column has been written and no row has been deleted. *)
Example calculate_difference_unset_date_TypeError :
  calculate_difference (State sheet_unset_date 0)
  = (Raise TypeError,
     State [header6 ++ [VStr "Difference"];
            [VStr "P1"; VInt 1000; VDateTime (midnight (Date 2024 1 1)); VNone; VNone;
             VDate (Date 2024 5 1)];
            [VStr "P4"; VInt 1000; VDateTime (midnight (Date 2024 1 1)); VNone; VNone]] 0).
Proof. vm_compute. reflexivity. Qed.

(** ** Deleting while going backwards *)

Lemma range_down_elem_of hi i : i ∈ range_down hi 1 <-> 2 <= i <= hi.
Proof.
  unfold range_down. rewrite list_elem_of_In, <- in_rev, in_seq. lia.
Qed.

Lemma range_down_NoDup hi : NoDup (range_down hi 1).
Proof.
  unfold range_down. apply NoDup_ListNoDup, NoDup_rev, seq_NoDup.
Qed.

Lemma omap_persisted_unmarked u a w marked i (data : list Row) :
  (forall j row, data !! j = Some row ->
     exists d, day_difference u a row = Ok d /\ marked (i + j) = (d <? 89)%Z) ->
  Forall2 (fun row' row =>
             exists d, day_difference u a row = Ok d /\ row' = with_cell w (VInt d) row)
          (omap (persisted u a w) data)
          (keep_rows (fun j row => if marked j : bool then None else Some row) i data).
Proof.
  revert i. induction data as [|row data IH]; intros i Hmarked; [constructor|].
  destruct (Hmarked 0 row eq_refl) as (d & Hd & Hm). rewrite Nat.add_0_r in Hm.
  assert (Forall2 (fun row' row0 =>
                     exists d0, day_difference u a row0 = Ok d0
                                /\ row' = with_cell w (VInt d0) row0)
            (omap (persisted u a w) data)
            (keep_rows (fun j row0 => if marked j : bool then None else Some row0) (S i) data))
    as Hrest.
  { apply IH. intros j row' Hj. destruct (Hmarked (S j) row' Hj) as (d' & Hd' & Hm').
    exists d'. split; [done|]. by replace (S i + j) with (i + S j) by lia. }
  cbn [omap list_omap keep_rows]. unfold persisted at 1, difference_step.
  rewrite Hd, Hm. destruct (d <? 89)%Z; cbn [survivor]; [done|].
  constructor; [|done]. by exists d.
Qed.

(** C7.  Both loops that delete rows go through the row numbers from the
    last one down to 2, each once, and a deletion leaves the rows not yet
    visited where they were: whatever the set of rows marked for deletion,
    when the test of each row, made on the row as it was in the input, marks
    it or not, the rows left are the unmarked rows in their order
    ([calculate_difference] having written the difference in each), and
    [read_excel_file] has read the clock once for each row. *)
Theorem backwards_deletion_keeps_unmarked :
  (forall ws : Worksheet,
      NoDup (range_down (max_row ws) 1)
      /\ forall i, i ∈ range_down (max_row ws) 1 <-> 2 <= i <= max_row ws)
  /\ (forall clock hdr (data : list Row) k c b u a r (marked : nat -> bool),
        column (hdr :: data) "CPR" = Some c ->
        column (hdr :: data) "Beløb" = Some b ->
        column (hdr :: data) "Udbetalingsdato" = Some u ->
        column (hdr :: data) "Aftale type" = Some a ->
        column (hdr :: data) "RIM aftaletype" = Some r ->
        (forall i row, data !! i = Some row ->
           delete_condition (cell_of row (a + 1)) (cell_of row (r + 1)) (cell_of row (u + 1))
                            (clock (k + (length data - 1 - i)))
           = Ok (marked i)) ->
        read_excel_file clock (State (hdr :: data) k)
        = (Ok tt, State (hdr :: unmarked marked data) (k + length data)))
  /\ (forall hdr (data : list Row) k u a (marked : nat -> bool),
        column (hdr :: data) "Udbetalingsdato" = Some u ->
        column (hdr :: data) "Adresseændringsdato" = Some a ->
        (forall i row, data !! i = Some row ->
           exists d, day_difference u a row = Ok d /\ marked i = (d <? 89)%Z) ->
        exists rows',
          calculate_difference (State (hdr :: data) k)
          = (Ok tt,
             State (with_cell (max_column (hdr :: data)) (VStr "Difference") hdr :: rows') k)
          /\ Forall2 (fun row' row =>
                        exists d, day_difference u a row = Ok d
                                  /\ row' = with_cell (max_column (hdr :: data)) (VInt d) row)
                     rows' (unmarked marked data)).
Proof.
  split; [|split].
  - intros ws. split; [apply range_down_NoDup | apply range_down_elem_of].
  - intros clock hdr data k c b u a r marked Hc Hb Hu Ha Hr Hmarked.
    rewrite (read_excel_file_all_ok _ _ _ _ c b u a r); try done.
    + do 3 f_equal. apply keep_rows_ext. intros j row Hj. cbn [Nat.add].
      unfold filter_step. rewrite (Hmarked j row Hj). by destruct (marked j).
    + intros i row Hi. unfold filter_step. rewrite (Hmarked i row Hi).
      destruct (marked i); eauto.
  - intros hdr data k u a marked Hu Ha Hmarked.
    exists (omap (persisted u a (max_column (hdr :: data))) data). split.
    + apply calculate_difference_all_ok; try done.
      apply Forall_lookup_2. intros i row Hi.
      destruct (Hmarked i row Hi) as (d & Hd & _). by exists d.
    + by apply omap_persisted_unmarked.
Qed.

Lemma backwards_deletion_keeps_unmarked_witness :
  read_excel_file clock_june (State sheet_five_rows 0)
  = (Ok tt,
     State (header5 :: unmarked (fun i => bool_decide (i = 1 \/ i = 2 \/ i = 3))
                         (drop 1 sheet_five_rows)) 5)
  /\ exists rows',
       calculate_difference (State sheet_enriched 0)
       = (Ok tt, State (with_cell 6 (VStr "Difference") header6 :: rows') 0)
       /\ Forall2 (fun row' row =>
                     exists d, day_difference 2 5 row = Ok d
                               /\ row' = with_cell 6 (VInt d) row)
                  rows' (unmarked (fun i => bool_decide (i = 1)) (drop 1 sheet_enriched)).
Proof.
  split.
  - refine (proj1 (proj2 backwards_deletion_keeps_unmarked) clock_june header5
              (drop 1 sheet_five_rows) 0 0 1 2 3 4 _ _ _ _ _ _ _); try reflexivity.
    intros [|[|[|[|[|i]]]]] row; intros [= <-]; reflexivity.
  - refine (proj2 (proj2 backwards_deletion_keeps_unmarked) header6
              (drop 1 sheet_enriched) 0 2 5 _ _ _ _); try reflexivity.
    intros [|[|[|i]]] row; intros [= <-]; eexists; split; reflexivity.
Defined.

(** ** The header and the columns *)

(** Whatever the outcome, the sheet after [read_excel_file] is the header
    and some of the rows, in their order. *)
Lemma read_excel_file_shape clock (ws : Worksheet) k :
  exists rows' k',
    snd (read_excel_file clock (State ws k)) = State (take 1 ws ++ rows') k'
    /\ sublist rows' (data_rows ws).
Proof.
  assert (forall name, name ∈ required_columns -> column ws name = None ->
            exists rows' k',
              snd (read_excel_file clock (State ws k)) = State (take 1 ws ++ rows') k'
              /\ sublist rows' (data_rows ws)) as Hmissing.
  { intros name Hname Hnone. rewrite (read_excel_file_missing _ _ _ name) by done.
    exists (data_rows ws), k. split; [|done]. cbn [snd]. unfold data_rows.
    by rewrite take_drop. }
  assert (forall name, In name required_columns -> name ∈ required_columns) as Hin.
  { intros name. apply list_elem_of_In. }
  destruct (column ws "CPR") as [c|] eqn:Hc;
    [|apply (Hmissing "CPR"); [apply Hin; simpl; tauto | done]].
  destruct (column ws "Beløb") as [b|] eqn:Hb;
    [|apply (Hmissing "Beløb"); [apply Hin; simpl; tauto | done]].
  destruct (column ws "Udbetalingsdato") as [u|] eqn:Hu;
    [|apply (Hmissing "Udbetalingsdato"); [apply Hin; simpl; tauto | done]].
  destruct (column ws "Aftale type") as [a|] eqn:Ha;
    [|apply (Hmissing "Aftale type"); [apply Hin; simpl; tauto | done]].
  destruct (column ws "RIM aftaletype") as [r|] eqn:Hr;
    [|apply (Hmissing "RIM aftaletype"); [apply Hin; simpl; tauto | done]].
  clear Hmissing Hin. destruct ws as [|hdr data]; [done|].
  rewrite (read_excel_file_run _ _ _ _ c b u a r) by done.
  pose proof (backwards_sublist (fun j => filter_step u a r (clock j)) 1 (rev data) [] [] k)
    as Hsub.
  destruct (backwards _ 1 (rev data) [] k) as [o [[todo' below'] k']].
  cbn [fst snd] in *. exists (rev todo' ++ below'), k'. split; [done|].
  rewrite rev_involutive, app_nil_r in Hsub. apply Hsub; [|done].
  intros j row row'. unfold filter_step.
  destruct (delete_condition _ _ _ _) as [[|]|e]; by intros [= <-].
Qed.

Lemma same_cells_sheet w hdr hdr' (rows rows' : list Row) r c :
  same_cells w hdr' hdr ->
  Forall2 (same_cells w) rows' rows ->
  1 <= c <= w ->
  cell_value (hdr' :: rows') r c = cell_value (hdr :: rows) r c.
Proof.
  intros Hhdr Hrows Hc. unfold cell_value, sheet_row.
  destruct (r - 1) as [|i]; cbn [lookup list_lookup default]; [by apply Hhdr|].
  change (cell_of (default [] (rows' !! i)) c = cell_of (default [] (rows !! i)) c).
  destruct (rows !! i) as [row|] eqn:Hi.
  - destruct (Forall2_lookup_r _ _ _ _ _ Hrows Hi) as (row' & -> & Hsame). by apply Hsame.
  - apply Forall2_length in Hrows. apply lookup_ge_None in Hi.
    rewrite (lookup_ge_None_2 rows' i) by lia. done.
Qed.

(** C9.  [get_address_changes] appends the header cell of the address
    change date right after the last column of the sheet and changes no cell
    in the columns there were, in no row; [calculate_difference] then
    appends the header cell of the difference right after it, and the rows
    it leaves are rows of the sheet it was given, in their order, with the
    cells they had in the columns there were.  This holds whatever the
    outcome of either function. *)
Theorem derived_columns_appended execute (ws : Worksheet) k :
  let columns := row_values ws 1 in
  let s1 := snd (get_address_changes execute (State ws k)) in
  let s2 := snd (calculate_difference s1) in
  length columns = max_column ws
  /\ row_values (sheet s1) 1 = columns ++ [VStr "Adresseændringsdato"]
  /\ row_values (sheet s2) 1 = columns ++ [VStr "Adresseændringsdato"; VStr "Difference"]
  /\ length (sheet s1) = max_row ws
  /\ (forall r c, 1 <= c <= length columns ->
        cell_value (sheet s1) r c = cell_value ws r c)
  /\ rows_kept_from (length columns + 1) (data_rows (sheet s2)) (data_rows (sheet s1)).
Proof.
  intros columns s1 s2.
  assert (length columns = max_column ws) as Hlen by apply row_values_header_length.
  destruct (get_address_changes_shape execute ws k) as (rows1 & Hs1 & Hsame1 & Hlen1).
  fold s1 in Hs1.
  destruct (calculate_difference_shape (sheet s1) (ticks s1)) as (rows2 & Hs2 & Hkept2 & Hlen2).
  replace (State (sheet s1) (ticks s1)) with s1 in Hs2 by by destruct s1.
  fold s2 in Hs2.
  assert (row_values (sheet s1) 1 = columns ++ [VStr "Adresseændringsdato"]) as Hhdr1.
  { rewrite Hs1. cbn [sheet]. by apply appended_header. }
  assert (max_column (sheet s1) = length columns + 1) as Hw1.
  { rewrite <- row_values_header_length, Hhdr1, length_app. done. }
  split; [done|]. split; [done|]. split; [|split; [|split]].
  - rewrite Hs2. cbn [sheet]. rewrite appended_header by done.
    by rewrite Hhdr1, <- app_assoc.
  - rewrite Hs1. cbn [sheet length]. apply Forall2_length in Hsame1. rewrite Hsame1.
    unfold max_row, data_rows. rewrite length_drop. destruct ws; simpl; lia.
  - intros r c Hc. rewrite Hs1. cbn [sheet]. rewrite Hlen in Hc.
    destruct ws as [|hdr data].
    + unfold cell_value, sheet_row.
      apply Forall2_nil_inv_r in Hsame1 as ->.
      destruct (r - 1) as [|[|i]]; cbn [lookup list_lookup default]; try done.
      by apply with_cell_same_cells.
    + apply (same_cells_sheet (max_column (hdr :: data)));
        [apply with_cell_same_cells | done | done].
  - rewrite Hs2. cbn [sheet]. by rewrite <- Hw1.
Qed.

(** C10.  Row 1 is never deleted and its cells are never changed: after
    [read_excel_file] it is what it was, after [get_address_changes] and
    after [calculate_difference] it is what it was with the header cell of
    the new column appended, whatever the outcome; the two loops that delete
    go through row numbers from 2 on, and so does the loop that writes. *)
Theorem header_row_preserved clock execute (ws : Worksheet) k :
  sheet_row (sheet (snd (read_excel_file clock (State ws k)))) 1 = sheet_row ws 1
  /\ sheet_row (sheet (snd (get_address_changes execute (State ws k)))) 1
     = row_values ws 1 ++ [VStr "Adresseændringsdato"]
  /\ sheet_row (sheet (snd (calculate_difference (State ws k)))) 1
     = row_values ws 1 ++ [VStr "Difference"]
  /\ Forall (fun row_index => 2 <= row_index) (range_down (max_row ws) 1)
  /\ Forall (fun row_index => 2 <= row_index) (range 2 (max_row ws + 1)).
Proof.
  assert (length (sheet_row ws 1) <= max_column ws) as Hhdr.
  { destruct ws as [|hdr data]; [simpl; lia|]. apply max_column_header. }
  split; [|split; [|split; [|split]]].
  - destruct (read_excel_file_shape clock ws k) as (rows' & k' & -> & Hsub).
    cbn [snd sheet]. destruct ws as [|hdr data]; [|done].
    by apply sublist_nil_r in Hsub as ->.
  - destruct (get_address_changes_shape execute ws k) as (rows' & -> & _).
    cbn [snd sheet]. rewrite sheet_row_header. by apply with_cell_app.
  - destruct (calculate_difference_shape ws k) as (rows' & -> & _).
    cbn [snd sheet]. rewrite sheet_row_header. by apply with_cell_app.
  - apply Forall_forall. intros i Hi. apply range_down_elem_of in Hi. lia.
  - apply Forall_forall. intros i Hi. unfold range in Hi.
    apply list_elem_of_In, in_seq in Hi. lia.
Qed.

(** ** The scenario of the specification *)

(** A move 121 days after the disbursement: the row is in the report with
    its difference. *)
Example process_scenario_retained :
  process clock_june (history_since (Date 2024 5 1)) (State sheet_scenario 0)
  = (Ok tt,
     State [header6 ++ [VStr "Difference"];
            [VStr "P1"; VInt 1000; VDateTime (midnight (Date 2024 1 1)); VStr ""; VStr "";
             VDate (Date 2024 5 1); VInt 121]] 1).
Proof. vm_compute. reflexivity. Qed.

(** A move 19 days after the disbursement: the row is dropped. *)
Example process_scenario_dropped :
  process clock_june (history_since (Date 2024 1 20)) (State sheet_scenario 0)
  = (Ok tt, State [header6 ++ [VStr "Difference"]] 1).
Proof. vm_compute. reflexivity. Qed.

(** A person without history, through the whole of [process]: the row
    passes the filter, [get_address_changes] leaves its date unset, and
    [calculate_difference] raises. *)
Example process_empty_history_TypeError :
  process clock_june (fun _ => cursor_empty) (State sheet_scenario 0)
  = (Raise TypeError,
     State [header6 ++ [VStr "Difference"];
            [VStr "P1"; VInt 1000; VDateTime (midnight (Date 2024 1 1)); VStr ""; VStr ""]] 1).
Proof. vm_compute. reflexivity. Qed.


(** * Further properties *)

(** ** The attachment *)

Lemma endswith_spec s suffix :
  endswith s suffix = true <-> exists base, s = base +:+ suffix.
Proof.
  induction s as [|ch s IH]; cbn [endswith].
  - destruct (String.eqb_spec "" suffix) as [<-|Hne].
    + split; [by exists ""|done].
    + split; [done|]. intros [[|ch base] Hbase]; simpl in Hbase; [done|discriminate].
  - destruct (String.eqb_spec (String ch s) suffix) as [<-|Hne].
    + split; [by exists ""|done].
    + rewrite IH. split.
      * intros [base ->]. by exists (String ch base).
      * intros [[|ch' base] Hbase]; simpl in Hbase; [done|].
        injection Hbase as -> ->. by exists base.
Qed.

(** X1.  [get_email_attachment] returns the bytes of an attachment exactly
    when the folder holds one email, that email has one attachment, and the
    name of the attachment ends in ".XLSX", capitals included; in every other
    case it raises [ValueError]. *)
Theorem get_email_attachment_accepts (emails : list Robot.Email) :
  (forall bytes,
      Robot.get_email_attachment emails = Ok bytes <->
      exists email attachment base,
        emails = [email]
        /\ Robot.attachments email = [attachment]
        /\ Robot.name attachment = base +:+ ".XLSX"
        /\ Robot.data attachment = bytes)
  /\ (forall e, Robot.get_email_attachment emails = Raise e -> e = ValueError).
Proof.
  unfold Robot.get_email_attachment.
  destruct emails as [|email [|email' emails]]; cbn [length Nat.eqb negb].
  - split; [|by intros e [= <-]].
    intros bytes. split; [done|]. by intros (? & ? & ? & [=] & _).
  - destruct (Robot.attachments email) as [|attachment [|attachment' rest]] eqn:Hatt;
      cbn [length Nat.eqb negb].
    + split; [|by intros e [= <-]].
      intros bytes. split; [done|]. by intros (? & ? & ? & [= <-] & Hnil & _); congruence.
    + destruct (endswith (Robot.name attachment) ".XLSX") eqn:Hends; cbn [negb].
      * split; [|done]. intros bytes. split.
        -- intros [= <-]. apply endswith_spec in Hends as [base Hbase].
           by exists email, attachment, base.
        -- intros (? & ? & ? & [= <-] & Hone & _ & <-). congruence.
      * split; [|by intros e [= <-]].
        intros bytes. split; [done|].
        intros (? & att & base & [= <-] & Hone & Hname & _).
        assert (att = attachment) as -> by congruence.
        assert (endswith (Robot.name attachment) ".XLSX" = true) as Htrue.
        { apply endswith_spec. by exists base. }
        congruence.
    + split; [|by intros e [= <-]].
      intros bytes. split; [done|]. intros (? & ? & ? & [= <-] & Hone & _). congruence.
  - split; [|by intros e [= <-]].
    intros bytes. split; [done|]. by intros (? & ? & ? & [=] & _).
Qed.

(** The test of the name tells capitals from small letters. *)
Example get_email_attachment_small_letters :
  Robot.get_email_attachment
    [ {| Robot.email_id := 1;
         Robot.attachments := [ {| Robot.name := "Liste.xlsx"; Robot.data := "bytes" |} ] |} ]
  = Raise ValueError.
Proof. reflexivity. Qed.

(** ** The message *)

Lemma split_not_nil sep s : split sep s <> [].
Proof.
  destruct s as [|ch s]; cbn [split]; [done|].
  destruct (Ascii.eqb ch sep); [done|]. by destruct (split sep s).
Qed.

Lemma join_split sep s : join sep (split sep s) = s.
Proof.
  induction s as [|ch s IH]; [done|]. cbn [split].
  destruct (Ascii.eqb_spec ch sep) as [->|Hne].
  - pose proof (split_not_nil sep s) as Hnil.
    destruct (split sep s) as [|part parts]; [done|].
    cbn [join]. cbn [join] in IH. by rewrite IH.
  - destruct (split sep s) as [|part parts] eqn:Hs; [by apply split_not_nil in Hs|].
    rewrite <- IH. by destruct parts.
Qed.

Lemma split_no_separator sep s :
  Forall (fun part => sep ∉ String.list_ascii_of_string part) (split sep s).
Proof.
  induction s as [|ch s IH]; cbn [split].
  - repeat constructor. simpl. apply not_elem_of_nil.
  - destruct (Ascii.eqb_spec ch sep) as [->|Hne].
    + constructor; [apply not_elem_of_nil | done].
    + destruct (split sep s) as [|part parts].
      * repeat constructor. simpl. rewrite elem_of_cons, elem_of_nil.
        intros [Heq|[]]. by apply Hne.
      * apply Forall_cons in IH as [Hpart Hparts]. constructor; [|done].
        simpl. rewrite elem_of_cons. intros [Heq|Hin]; [by apply Hne | by apply Hpart].
Qed.

Lemma string_app_assoc (s1 s2 s3 : string) : (s1 +:+ s2) +:+ s3 = s1 +:+ (s2 +:+ s3).
Proof.
  induction s1 as [|ch s1 IH]; [done|].
  change (String ch ((s1 +:+ s2) +:+ s3) = String ch (s1 +:+ (s2 +:+ s3))). by rewrite IH.
Qed.

Lemma endswith_append base suffix : endswith (base +:+ suffix) suffix = true.
Proof. apply endswith_spec. by exists base. Qed.

(** What [send_email] does, by the number of pieces of the mime type. *)
Lemma send_email_run env s :
  Robot.send_email env s =
    match Robot.unpack2 (split "/"%char (Robot.mime_type env)) with
    | Ok types =>
        (Ok {| Robot.msg_to := split ","%char (Robot.process_arguments env);
               Robot.msg_from := Robot.EMAIL_SENDER env;
               Robot.msg_subject :=
                 "Fastsættelsesliste Hjælp til boligindskud "
                 +:+ strftime_dmy (Robot.clock env (ticks s));
               Robot.msg_content :=
                 "Hermed fremsendes den månedlige fastsættelsesliste på Hjælp til boligindskud.";
               Robot.maintype := fst types;
               Robot.subtype := snd types;
               Robot.filename :=
                 "Fastsættelsesliste Hjælp til boligindskud "
                 +:+ strftime_dmy (Robot.clock env (S (ticks s))) +:+ ".XLSX";
               Robot.payload := Robot.save env (sheet s) |},
         State (sheet s) (S (S (ticks s))))
    | Raise e => (Raise e, State (sheet s) (S (ticks s)))
    end.
Proof.
  unfold Robot.send_email, bind, now, get_sheet, lift, ret; cbn [sheet ticks].
  by destruct (Robot.unpack2 _).
Qed.

(** X2.  The recipients of the message are the pieces of the arguments of
    the process between its commas: there is at least one, none holds a
    comma, and joined by commas they give the arguments back. *)
Theorem send_email_recipients env s msg s' :
  Robot.send_email env s = (Ok msg, s') ->
  Robot.msg_to msg <> []
  /\ Forall (fun recipient => ","%char ∉ String.list_ascii_of_string recipient) (Robot.msg_to msg)
  /\ join ","%char (Robot.msg_to msg) = Robot.process_arguments env.
Proof.
  rewrite send_email_run. destruct (Robot.unpack2 _) as [types|e]; [|done].
  intros [= <- <-]. cbn [Robot.msg_to].
  split; [apply split_not_nil|]. split; [apply split_no_separator | apply join_split].
Qed.

Lemma send_email_recipients_witness :
  Robot.msg_to message_june <> []
  /\ Forall (fun recipient => ","%char ∉ String.list_ascii_of_string recipient)
            (Robot.msg_to message_june)
  /\ join ","%char (Robot.msg_to message_june) = Robot.process_arguments environment_june.
Proof.
  apply (send_email_recipients environment_june (State sheet_scenario 0) message_june
           (State sheet_scenario 2)).
  vm_compute. reflexivity.
Defined.

(** X3.  The file [send_email] attaches passes the tests of
    [get_email_attachment]: a folder that held only the message sent would
    give back the bytes of the workbook as it was saved.  [send_email]
    leaves the workbook as it is and reads the clock twice. *)
Theorem send_email_attachment_accepted env s msg s' id :
  Robot.send_email env s = (Ok msg, s') ->
  Robot.get_email_attachment
    [ {| Robot.email_id := id;
         Robot.attachments :=
           [ {| Robot.name := Robot.filename msg; Robot.data := Robot.payload msg |} ] |} ]
  = Ok (Robot.save env (sheet s))
  /\ sheet s' = sheet s
  /\ ticks s' = ticks s + 2.
Proof.
  rewrite send_email_run. destruct (Robot.unpack2 _) as [types|e]; [|done].
  intros [= <- <-]. cbn [sheet ticks]. split; [|split; [done|lia]].
  unfold Robot.get_email_attachment.
  cbn [length Nat.eqb negb Robot.attachments Robot.name Robot.data Robot.filename Robot.payload].
  rewrite <- string_app_assoc. by rewrite endswith_append.
Qed.

Lemma send_email_attachment_accepted_witness :
  Robot.get_email_attachment
    [ {| Robot.email_id := 1;
         Robot.attachments :=
           [ {| Robot.name := Robot.filename message_june;
                Robot.data := Robot.payload message_june |} ] |} ]
  = Ok (Robot.save environment_june (sheet (State sheet_scenario 0)))
  /\ sheet (State sheet_scenario 2) = sheet (State sheet_scenario 0)
  /\ ticks (State sheet_scenario 2) = ticks (State sheet_scenario 0) + 2.
Proof.
  apply (send_email_attachment_accepted environment_june (State sheet_scenario 0) message_june
           (State sheet_scenario 2) 1).
  vm_compute. reflexivity.
Defined.

(** ** The whole of process *)

Lemma clear_email_folder_fold (emails remaining : list Robot.Email) :
  (forall e, e ∈ remaining ->
     exists e', e' ∈ emails /\ Robot.email_id e' = Robot.email_id e) ->
  fold_left (fun remaining email => Robot.delete_email email remaining) emails remaining = [].
Proof.
  revert remaining. induction emails as [|email emails IH]; intros remaining Hall.
  - destruct remaining as [|e remaining]; [done|].
    destruct (Hall e) as (e' & He' & _); [by left|]. by apply elem_of_nil in He'.
  - cbn [fold_left]. apply IH. intros e He.
    unfold Robot.delete_email in He. apply list_elem_of_In, filter_In in He as [He Hid].
    apply list_elem_of_In in He. destruct (Hall e He) as (e' & He' & Heq).
    apply elem_of_cons in He' as [->|He']; [|by exists e'].
    rewrite Heq, Nat.eqb_refl in Hid. done.
Qed.

Lemma clear_email_folder_empty (emails : list Robot.Email) :
  Robot.clear_email_folder emails = [].
Proof. apply clear_email_folder_fold. intros e He. by exists e. Qed.



(** A workbook whose mime type has no slash: the three steps return, the
    clock is read for the subject, and the unpacking of line 212 raises
    with nothing sent. *)
Example process_mime_type_ValueError :
  Robot.process
    {| Robot.clock := clock_june;
       Robot.execute := history_since (Date 2024 5 1);
       Robot.load_workbook := fun _ => sheet_scenario;
       Robot.save := fun _ => "bytes";
       Robot.mime_type := "application";
       Robot.EMAIL_SENDER := "robot@friend.dk";
       Robot.process_arguments := "a@aarhus.dk" |}
    world_one_email
  = (Raise ValueError, Robot.World [email_with_list] [] 2).
Proof. vm_compute. reflexivity. Qed.

(** X5.  When [process] returns, exactly one message has been sent, its
    attachment is the workbook as the three steps on the sheet left it, and
    the folder is empty. *)
Theorem process_success_sends_once env w w' :
  Robot.process env w = (Ok tt, w') ->
  exists excel_file wb msg,
    Robot.get_email_attachment (Robot.folder w) = Ok excel_file
    /\ process (Robot.clock env) (Robot.execute env)
         (State (Robot.load_workbook env excel_file) (Robot.readings w)) = (Ok tt, wb)
    /\ Robot.outbox w' = Robot.outbox w ++ [msg]
    /\ Robot.payload msg = Robot.save env (sheet wb)
    /\ Robot.folder w' = []
    /\ Robot.readings w' = ticks wb + 2.
Proof.
  unfold Robot.process.
  destruct (Robot.get_email_attachment (Robot.folder w)) as [excel_file|e0]; [|done].
  destruct (process _ _ _) as [[[]|e1] wb] eqn:Hsteps; [|done].
  rewrite send_email_run. destruct (Robot.unpack2 _) as [types|e2]; [|done].
  intros [= <-]. eexists excel_file, wb, _. cbn [Robot.outbox Robot.folder Robot.readings].
  repeat split; try done.
  - apply clear_email_folder_empty.
  - lia.
Qed.

Lemma process_success_sends_once_witness :
  exists excel_file wb msg,
    Robot.get_email_attachment (Robot.folder world_one_email) = Ok excel_file
    /\ process (Robot.clock environment_june) (Robot.execute environment_june)
         (State (Robot.load_workbook environment_june excel_file)
                (Robot.readings world_one_email)) = (Ok tt, wb)
    /\ Robot.outbox (Robot.World [] [message_june] 3)
       = Robot.outbox world_one_email ++ [msg]
    /\ Robot.payload msg = Robot.save environment_june (sheet wb)
    /\ Robot.folder (Robot.World [] [message_june] 3) = []
    /\ Robot.readings (Robot.World [] [message_june] 3) = ticks wb + 2.
Proof.
  apply (process_success_sends_once environment_june world_one_email
           (Robot.World [] [message_june] 3)).
  vm_compute. reflexivity.
Defined.

(** X6.  A run that returned cannot be repeated on the folder it leaves:
    the next run raises [ValueError] at the count of the emails, before it
    reads the clock or sends anything. *)
Theorem process_twice env w w' :
  Robot.process env w = (Ok tt, w') ->
  Robot.process env w' = (Raise ValueError, w').
Proof.
  unfold Robot.process at 1.
  destruct (Robot.get_email_attachment (Robot.folder w)) as [excel_file|e0]; [|done].
  destruct (process _ _ _) as [[[]|e1] wb]; [|done].
  destruct (Robot.send_email env wb) as [[msg|e2] wb']; [|done].
  intros [= <-]. unfold Robot.process. cbn [Robot.folder].
  by rewrite clear_email_folder_empty.
Qed.

Lemma process_twice_witness :
  Robot.process environment_june (Robot.World [] [message_june] 3)
  = (Raise ValueError, Robot.World [] [message_june] 3).
Proof.
  apply (process_twice environment_june world_one_email).
  vm_compute. reflexivity.
Defined.

(** ** When the row filter returns *)

Lemma list_index_app x l1 l2 :
  list_index x (l1 ++ l2)
  = match list_index x l1 with
    | Some i => Some i
    | None => (fun i => length l1 + i) <$> list_index x l2
    end.
Proof.
  induction l1 as [|y l1 IH]; cbn [app list_index length].
  - by destruct (list_index x l2).
  - destruct (py_eq y x); [done|]. rewrite IH.
    destruct (list_index x l1); [done|]. by destruct (list_index x l2).
Qed.

Lemma list_index_pad name n row :
  list_index (VStr name) (pad n row) = list_index (VStr name) row.
Proof.
  unfold pad. rewrite list_index_app. destruct (list_index (VStr name) row); [done|].
  assert (forall m, list_index (VStr name) (replicate m VNone) = None) as ->; [|done].
  intros m. induction m as [|m IH]; [done|]. cbn [replicate list_index]. by rewrite IH.
Qed.

Lemma column_header hdr (data : list Row) name :
  column (hdr :: data) name = list_index (VStr name) hdr.
Proof. unfold column, row_values. by rewrite list_index_pad, sheet_row_header. Qed.

Lemma backwards_Raise_inv step inc todo below k e :
  fst (backwards step inc todo below k) = Raise e ->
  exists j row, todo !! j = Some row /\ step (k + j * inc) row = Raise e.
Proof.
  revert below k. induction todo as [|row todo IH]; intros below k Hraise; [done|].
  cbn [backwards] in Hraise.
  destruct (step k row) as [[row'|]|e'] eqn:Hr.
  - destruct (IH _ _ Hraise) as (j & row0 & Hj & Hstep).
    exists (S j), row0. split; [done|]. rewrite <- Hstep. f_equal. lia.
  - destruct (IH _ _ Hraise) as (j & row0 & Hj & Hstep).
    exists (S j), row0. split; [done|]. rewrite <- Hstep. f_equal. lia.
  - injection Hraise as ->. exists 0, row. split; [done|]. by rewrite Nat.add_0_r.
Qed.

Lemma backwards_clock step inc todo below k :
  k <= (backwards step inc todo below k).2.2
  <= k + length todo * inc.
Proof.
  revert below k. induction todo as [|row todo IH]; intros below k; [simpl; lia|].
  cbn [backwards length]. destruct (step k row) as [[row'|]|e].
  - specialize (IH (row' :: below) (k + inc)). lia.
  - specialize (IH below (k + inc)). lia.
  - cbn [snd]. lia.
Qed.

Lemma filter_step_returns u a r t row :
  (exists o, filter_step u a r t row = Ok o)
  <-> (judged_by_date a r row -> exists dato, cell_of row (u + 1) = VDateTime dato).
Proof.
  unfold filter_step, delete_condition, judged_by_date, py_eq.
  destruct (truthy (cell_of row (a + 1))).
  { split; [by intros _ [[=] _] | eauto]. }
  destruct (bool_decide_reflect (cell_of row (r + 1) = VStr "IN")) as [Hin|Hin].
  { split; [by intros _ [_ []] | eauto]. }
  destruct (cell_of row (u + 1)) as [| | | |dato]; cbn [datetime_minus].
  5:{ split; [eauto|]. intros _. destruct (days _ <? 90)%Z; eauto. }
  all: split; [by intros [o [=]] | intros Hdato; by destruct Hdato as [dato [=]]].
Qed.

(** X7.  On a sheet with the five columns, [read_excel_file] returns
    exactly when every row that passes the two tests on the agreement types
    holds a datetime as its disbursement date: a row deleted for its
    agreement type may hold anything there.  A blank row passes both tests
    and holds no datetime, so a sheet with one makes the call raise. *)
Theorem read_excel_file_returns_iff clock hdr (data : list Row) k c b u a r :
  column (hdr :: data) "CPR" = Some c ->
  column (hdr :: data) "Beløb" = Some b ->
  column (hdr :: data) "Udbetalingsdato" = Some u ->
  column (hdr :: data) "Aftale type" = Some a ->
  column (hdr :: data) "RIM aftaletype" = Some r ->
  fst (read_excel_file clock (State (hdr :: data) k)) = Ok tt
  <-> Forall (fun row => judged_by_date a r row ->
                         exists dato, cell_of row (u + 1) = VDateTime dato) data.
Proof.
  intros Hc Hb Hu Ha Hr.
  rewrite (read_excel_file_run _ _ _ _ c b u a r) by done.
  pose proof (backwards_Ok_inv (fun j => filter_step u a r (clock j)) 1 (rev data) [] k) as Hinv.
  pose proof (backwards_all_ok (fun j => filter_step u a r (clock j)) 1 (rev data) [] k) as Hok.
  destruct (backwards _ 1 (rev data) [] k) as [o [[todo' below'] k']].
  cbn [fst] in *. split.
  - intros ->. rewrite <- (rev_involutive data). apply Forall_rev, Forall_lookup_2.
    intros j row Hj. apply (filter_step_returns u a r (clock (k + j * 1))).
    by apply Hinv.
  - intros Hall.
    assert (forall j row, rev data !! j = Some row ->
              exists o', filter_step u a r (clock (k + j * 1)) row = Ok o') as Hsteps.
    { intros j row Hj. apply filter_step_returns. apply rev_lookup_Some in Hj as [_ Hj].
      by apply (Forall_lookup_1 _ _ _ _ Hall Hj). }
    specialize (Hok Hsteps). by injection Hok as ->.
Qed.

Lemma read_excel_file_returns_iff_witness :
  fst (read_excel_file clock_june (State sheet_blank_row 0)) = Ok tt
  <-> Forall (fun row => judged_by_date 3 4 row ->
                         exists dato, cell_of row (2 + 1) = VDateTime dato)
             (drop 1 sheet_blank_row).
Proof.
  apply (read_excel_file_returns_iff clock_june header5 (drop 1 sheet_blank_row) 0 0 1 2 3 4);
    reflexivity.
Defined.

(** The blank row at the end of the sheet is the first one visited. *)
Example read_excel_file_blank_row :
  read_excel_file clock_june (State sheet_blank_row 0)
  = (Raise TypeError, State sheet_blank_row 1).
Proof. vm_compute. reflexivity. Qed.

(** X8.  Whatever its outcome, [read_excel_file] only deletes rows: the
    rows it leaves are rows of the sheet, in their order and unchanged, row 1
    stays, and it reads the clock at most once for each data row. *)
Theorem read_excel_file_only_deletes clock (ws : Worksheet) k :
  exists rows',
    sheet (snd (read_excel_file clock (State ws k))) = take 1 ws ++ rows'
    /\ sublist rows' (data_rows ws)
    /\ k <= ticks (snd (read_excel_file clock (State ws k))) <= k + length (data_rows ws).
Proof.
  destruct (read_excel_file_shape clock ws k) as (rows' & k' & Hshape & Hsub).
  exists rows'. rewrite Hshape. cbn [sheet ticks]. split; [done|]. split; [done|].
  assert (forall name, In name required_columns -> column ws name = None ->
            k <= k' <= k + length (data_rows ws)) as Hmissing.
  { intros name Hname Hnone. apply list_elem_of_In in Hname.
    rewrite (read_excel_file_missing _ _ _ name) in Hshape by done.
    injection Hshape as _ <-. lia. }
  destruct (column ws "CPR") as [c|] eqn:Hc;
    [|apply (Hmissing "CPR"); [simpl; tauto | done]].
  destruct (column ws "Beløb") as [b|] eqn:Hb;
    [|apply (Hmissing "Beløb"); [simpl; tauto | done]].
  destruct (column ws "Udbetalingsdato") as [u|] eqn:Hu;
    [|apply (Hmissing "Udbetalingsdato"); [simpl; tauto | done]].
  destruct (column ws "Aftale type") as [a|] eqn:Ha;
    [|apply (Hmissing "Aftale type"); [simpl; tauto | done]].
  destruct (column ws "RIM aftaletype") as [r|] eqn:Hr;
    [|apply (Hmissing "RIM aftaletype"); [simpl; tauto | done]].
  clear Hmissing. destruct ws as [|hdr data]; [done|].
  rewrite (read_excel_file_run _ _ _ _ c b u a r) in Hshape by done.
  pose proof (backwards_clock (fun j => filter_step u a r (clock j)) 1 (rev data) [] k) as Hk.
  destruct (backwards _ 1 (rev data) [] k) as [o [[todo' below'] k'']].
  cbn [fst snd] in *. injection Hshape as _ <-.
  rewrite length_rev in Hk. change (data_rows (hdr :: data)) with data. lia.
Qed.

Lemma keep_rows_filter (P : Row -> bool) i (rows : list Row) :
  keep_rows (fun _ row => if P row then None else Some row) i rows
  = List.filter (fun row => negb (P row)) rows.
Proof.
  revert i. induction rows as [|row rows IH]; intros i; [done|].
  cbn [keep_rows List.filter]. rewrite IH. by destruct (P row).
Qed.

(** With a clock that stands still the filter is the filter of the
    specification. *)
Lemma read_excel_file_still_clock clock now hdr (data : list Row) k c b u a r :
  column (hdr :: data) "CPR" = Some c ->
  column (hdr :: data) "Beløb" = Some b ->
  column (hdr :: data) "Udbetalingsdato" = Some u ->
  column (hdr :: data) "Aftale type" = Some a ->
  column (hdr :: data) "RIM aftaletype" = Some r ->
  Forall (typed_row u a) data ->
  (forall j, clock j = now) ->
  read_excel_file clock (State (hdr :: data) k)
  = (Ok tt,
     State (hdr :: List.filter (fun row => negb (row_disqualified u a r now row)) data)
           (k + length data)).
Proof.
  intros Hc Hb Hu Ha Hr Htyped Hnow.
  assert (forall i row, data !! i = Some row -> typed_row u a row) as Ht.
  { intros i row Hi. by eapply Forall_lookup_1. }
  rewrite (read_excel_file_all_ok _ _ _ _ c b u a r) by
    (try done; intros i row Hi; rewrite filter_step_typed; eauto).
  do 3 f_equal. rewrite <- keep_rows_filter with (i := 0).
  apply keep_rows_ext. intros j row Hj.
  rewrite filter_step_typed by eauto. by rewrite Hnow.
Qed.

(** X9.  With a clock that stands still, filtering a second time deletes
    nothing: on a sheet with the five columns and typed rows,
    [read_excel_file] run on the sheet it has left returns and leaves it as
    it is. *)
Theorem read_excel_file_twice clock now hdr (data : list Row) k c b u a r :
  column (hdr :: data) "CPR" = Some c ->
  column (hdr :: data) "Beløb" = Some b ->
  column (hdr :: data) "Udbetalingsdato" = Some u ->
  column (hdr :: data) "Aftale type" = Some a ->
  column (hdr :: data) "RIM aftaletype" = Some r ->
  Forall (typed_row u a) data ->
  (forall j, clock j = now) ->
  let s1 := snd (read_excel_file clock (State (hdr :: data) k)) in
  fst (read_excel_file clock s1) = Ok tt
  /\ sheet (snd (read_excel_file clock s1)) = sheet s1.
Proof.
  intros Hc Hb Hu Ha Hr Htyped Hnow s1. subst s1.
  rewrite (read_excel_file_still_clock _ now _ _ _ c b u a r) by done. cbn [snd].
  set (data1 := List.filter _ data).
  assert (Forall (typed_row u a) data1) as Htyped1.
  { apply Forall_forall. intros row Hrow.
    apply list_elem_of_In, filter_In in Hrow as [Hrow _].
    apply list_elem_of_In in Hrow. by apply (proj1 (Forall_forall _ _) Htyped). }
  rewrite column_header in Hc, Hb, Hu, Ha, Hr.
  rewrite (read_excel_file_still_clock _ now _ _ _ c b u a r)
    by (rewrite ?column_header; done).
  cbn [fst snd sheet]. split; [done|]. f_equal.
  unfold data1. clear. induction data as [|row data IH]; [done|].
  cbn [List.filter]. destruct (row_disqualified u a r now row) eqn:Hq; cbn [negb]; [done|].
  cbn [List.filter]. rewrite Hq. cbn [negb]. by rewrite IH.
Qed.

Lemma read_excel_file_twice_witness :
  fst (read_excel_file clock_june
         (snd (read_excel_file clock_june (State sheet_five_rows 0)))) = Ok tt
  /\ sheet (snd (read_excel_file clock_june
                   (snd (read_excel_file clock_june (State sheet_five_rows 0)))))
     = sheet (snd (read_excel_file clock_june (State sheet_five_rows 0))).
Proof.
  refine (read_excel_file_twice clock_june (midnight (Date 2024 6 1)) header5
            (drop 1 sheet_five_rows) 0 0 1 2 3 4 _ _ _ _ _ _ _);
    try reflexivity.
  typed_rows.
Defined.

(** ** When the lookups return *)

Lemma forwards_all_ok (step : Row -> outcome Row) (f : Row -> Row) (rows : list Row) :
  Forall (fun row => step row = Ok (f row)) rows ->
  forwards step rows = (Ok tt, f <$> rows).
Proof.
  induction 1 as [|row rows Hrow _ IH]; [done|].
  cbn [forwards]. by rewrite Hrow, IH.
Qed.

Lemma forwards_Ok_inv (step : Row -> outcome Row) (rows : list Row) :
  fst (forwards step rows) = Ok tt -> Forall (fun row => exists row', step row = Ok row') rows.
Proof.
  induction rows as [|row rows IH]; [constructor|]. cbn [forwards].
  destruct (step row) as [row'|e] eqn:Hr; [|done].
  destruct (forwards step rows) as [o rows'']. cbn [fst] in *.
  intros Ho. constructor; eauto.
Qed.

Lemma forwards_Raise_inv (step : Row -> outcome Row) (rows : list Row) e :
  fst (forwards step rows) = Raise e -> Exists (fun row => step row = Raise e) rows.
Proof.
  induction rows as [|row rows IH]; [done|]. cbn [forwards].
  destruct (step row) as [row'|e'] eqn:Hr.
  - destruct (forwards step rows) as [o rows'']. cbn [fst] in *.
    intros Ho. apply Exists_cons_tl. by apply IH.
  - intros [= ->]. by apply Exists_cons_hd.
Qed.

Lemma look_up_address_change_returns cursor :
  (exists date, look_up_address_change cursor = Ok date)
  <-> (rowcount cursor = 0%Z \/ fetchall cursor <> []).
Proof.
  unfold look_up_address_change. destruct (Z.eqb_spec (rowcount cursor) 0) as [Hz|Hz].
  - split; [by left | eauto].
  - destruct (fetchall cursor) as [|row0 rows].
    + split; [by intros [date [=]] | by intros [?|?]].
    + split; [by right | eauto].
Qed.

Lemma look_up_address_change_raises cursor e :
  look_up_address_change cursor = Raise e ->
  e = IndexError /\ rowcount cursor <> 0%Z /\ fetchall cursor = [].
Proof.
  unfold look_up_address_change. destruct (Z.eqb_spec (rowcount cursor) 0) as [Hz|Hz]; [done|].
  destruct (fetchall cursor) as [|row0 rows]; [|done]. by intros [= <-].
Qed.

Lemma enrich_step_returns execute c w row :
  lookup_returns execute c row ->
  enrich_step execute c w row = Ok (enriched execute c w row).
Proof.
  intros Hret. apply look_up_address_change_returns in Hret as [date Hdate].
  unfold enrich_step, enriched. rewrite Hdate. by destruct date.
Qed.

(** X10.  On a sheet with a CPR column, [get_address_changes] returns
    exactly when the lookup of every person returns, that is when no cursor
    is without rows while its row count is not 0; it then has written, for
    every row, the date looked up for the person of that row in the new
    column, left the rows of persons without history as they were, deleted
    nothing and not read the clock.  When it does not return it raises the
    [IndexError] of [rows[0]]. *)
Theorem get_address_changes_returns_iff execute hdr (data : list Row) k c :
  column (hdr :: data) "CPR" = Some c ->
  (fst (get_address_changes execute (State (hdr :: data) k)) = Ok tt
   <-> Forall (lookup_returns execute c) data)
  /\ (Forall (lookup_returns execute c) data ->
      get_address_changes execute (State (hdr :: data) k)
      = (Ok tt,
         State (with_cell (max_column (hdr :: data)) (VStr "Adresseændringsdato") hdr
                :: (enriched execute c (max_column (hdr :: data)) <$> data)) k))
  /\ (forall e, fst (get_address_changes execute (State (hdr :: data) k)) = Raise e ->
                e = IndexError).
Proof.
  intros Hc. rewrite (get_address_changes_run _ _ _ _ c Hc).
  set (w := max_column (hdr :: data)).
  assert (Forall (lookup_returns execute c) data ->
          forwards (enrich_step execute c w) data = (Ok tt, enriched execute c w <$> data))
    as Hok.
  { intros Hall. apply forwards_all_ok. eapply Forall_impl; [done|].
    intros row Hrow. by apply enrich_step_returns. }
  pose proof (forwards_Ok_inv (enrich_step execute c w) data) as Hinv.
  pose proof (forwards_Raise_inv (enrich_step execute c w) data) as Hraise.
  split; [split|split].
  - destruct (forwards _ data) as [o rows']. cbn [fst] in *. intros ->.
    eapply Forall_impl; [by apply Hinv|]. intros row [row' Hrow].
    apply look_up_address_change_returns. unfold enrich_step in Hrow.
    destruct (look_up_address_change _) as [date|e]; [eauto|done].
  - intros Hall. by rewrite (Hok Hall).
  - intros Hall. by rewrite (Hok Hall).
  - destruct (forwards _ data) as [o rows']. cbn [fst] in *. intros e ->.
    specialize (Hraise e eq_refl). apply Exists_exists in Hraise as (row & _ & Hrow).
    unfold enrich_step in Hrow.
    destruct (look_up_address_change _) as [[d|]|e'] eqn:Hlook; try done.
    injection Hrow as ->. by apply look_up_address_change_raises in Hlook as [-> _].
Qed.

Lemma get_address_changes_returns_iff_witness :
  get_address_changes execute_P1_P5 (State sheet_five_rows 0)
  = (Ok tt,
     State (with_cell (max_column sheet_five_rows) (VStr "Adresseændringsdato") header5
            :: (enriched execute_P1_P5 0 (max_column sheet_five_rows)
                  <$> drop 1 sheet_five_rows)) 0).
Proof.
  apply (proj1 (proj2 (get_address_changes_returns_iff execute_P1_P5 header5
                         (drop 1 sheet_five_rows) 0 0 eq_refl))).
  repeat first [apply List.Forall_nil | apply List.Forall_cons];
    first [by left | by right].
Defined.

(** X11.  On a sheet without a CPR column, the empty sheet included,
    [get_address_changes] raises [ValueError] after it has written the
    header cell of the new column: the sheet it leaves has that cell and the
    rows it had. *)
Theorem get_address_changes_without_cpr execute (ws : Worksheet) k :
  column ws "CPR" = None ->
  get_address_changes execute (State ws k)
  = (Raise ValueError,
     State (with_cell (max_column ws) (VStr "Adresseændringsdato") (sheet_row ws 1)
            :: data_rows ws) k).
Proof.
  intros Hc. destruct ws as [|hdr data]; [reflexivity|].
  by rewrite get_address_changes_missing.
Qed.

Lemma get_address_changes_without_cpr_witness :
  get_address_changes execute_P1_P5 (State sheet_no_cpr 0)
  = (Raise ValueError,
     State (with_cell (max_column sheet_no_cpr) (VStr "Adresseændringsdato")
              (sheet_row sheet_no_cpr 1)
            :: data_rows sheet_no_cpr) 0).
Proof. apply get_address_changes_without_cpr. reflexivity. Defined.

(** ** When the difference pass returns *)

Lemma day_difference_returns u a row :
  (exists d, day_difference u a row = Ok d) <-> has_dates u a row.
Proof.
  split.
  - intros [d Hd]. apply day_difference_Ok in Hd as (change & dato & Hchange & Hdato & _).
    split; eauto.
  - intros [[change Hchange] [dato Hdato]]. unfold day_difference.
    rewrite Hdato, Hchange. cbn [date_of minus_date]. eauto.
Qed.

Lemma difference_step_raises u a w row e :
  difference_step u a w row = Raise e -> e = TypeError \/ e = AttributeError.
Proof.
  unfold difference_step, day_difference.
  destruct (default VNone (row !! u)) as [| | | |dato]; cbn [date_of];
    try (intros [= <-]; by right).
  destruct (default VNone (row !! a)) as [| | |change|]; cbn [minus_date];
    try (intros [= <-]; by left).
  by destruct (_ <? 89)%Z.
Qed.

(** X12.  [calculate_difference] returns exactly when the sheet has the
    two columns it looks up and every data row holds a date as its address
    change and a datetime as its disbursement.  It raises [ValueError]
    exactly when one of the two columns is missing, and [TypeError] or
    [AttributeError] when the columns are there and a row does not hold
    these two values. *)
Theorem calculate_difference_returns_iff (ws : Worksheet) k :
  (fst (calculate_difference (State ws k)) = Ok tt
   <-> exists u a,
         column ws "Udbetalingsdato" = Some u
         /\ column ws "Adresseændringsdato" = Some a
         /\ Forall (has_dates u a) (data_rows ws))
  /\ (fst (calculate_difference (State ws k)) = Raise ValueError
      <-> column ws "Udbetalingsdato" = None \/ column ws "Adresseændringsdato" = None)
  /\ (forall e, fst (calculate_difference (State ws k)) = Raise e ->
                e = ValueError \/ e = TypeError \/ e = AttributeError).
Proof.
  destruct ws as [|hdr data].
  { split; [|split].
    - split; [done|]. by intros (u & a & [=] & _).
    - split; [by left | reflexivity].
    - intros e [= <-]. by left. }
  change (data_rows (hdr :: data)) with data.
  destruct (column (hdr :: data) "Udbetalingsdato") as [u|] eqn:Hu.
  2:{ rewrite calculate_difference_missing by by left. cbn [fst]. split; [|split].
      - split; [done|]. by intros (? & ? & [=] & _).
      - split; [by left | done].
      - intros e [= <-]. by left. }
  destruct (column (hdr :: data) "Adresseændringsdato") as [a|] eqn:Ha.
  2:{ rewrite calculate_difference_missing by by right. cbn [fst]. split; [|split].
      - split; [done|]. by intros (? & ? & _ & [=] & _).
      - split; [by right | done].
      - intros e [= <-]. by left. }
  pose proof (calculate_difference_Ok_inv (hdr :: data) k) as Hinv.
  pose proof (calculate_difference_all_ok hdr data k u a Hu Ha) as Hok.
  assert (forall e, fst (calculate_difference (State (hdr :: data) k)) = Raise e ->
            e = TypeError \/ e = AttributeError) as Hraise.
  { intros e. rewrite (calculate_difference_run _ _ _ u a Hu Ha).
    pose proof (backwards_Raise_inv (fun _ => difference_step u a (max_column (hdr :: data))) 0
                  (rev data) [] k e) as Hr.
    destruct (backwards _ 0 (rev data) [] k) as [o [[todo' below'] k']]. cbn [fst] in *.
    intros Ho. destruct (Hr Ho) as (j & row & _ & Hstep).
    by apply difference_step_raises in Hstep. }
  split; [split|split].
  - intros Ho. destruct (Hinv Ho) as (hdr' & data' & u' & a' & [= <- <-] & Hu' & Ha' & Hall).
    assert (u' = u) as -> by congruence. assert (a' = a) as -> by congruence.
    exists u, a. split; [done|]. split; [done|].
    eapply Forall_impl; [done|]. intros row. apply day_difference_returns.
  - intros (u' & a' & [= <-] & [= <-] & Hall). rewrite Hok; [done|].
    eapply Forall_impl; [done|]. intros row. apply day_difference_returns.
  - split; [|by intros [[=]|[=]]].
    intros Ho. destruct (Hraise _ Ho) as [[=]|[=]].
  - intros e He. right. by apply Hraise.
Qed.

(** X13.  Called on a sheet that lacks one of its two columns, as when
    [get_address_changes] has not run, [calculate_difference] raises
    [ValueError] after it has written the header cell of the difference: the
    sheet it leaves has that cell and the rows it had. *)
Theorem calculate_difference_without_columns (ws : Worksheet) k :
  column ws "Udbetalingsdato" = None \/ column ws "Adresseændringsdato" = None ->
  calculate_difference (State ws k)
  = (Raise ValueError,
     State (with_cell (max_column ws) (VStr "Difference") (sheet_row ws 1) :: data_rows ws) k).
Proof.
  intros Hmissing. destruct ws as [|hdr data]; [reflexivity|].
  by rewrite calculate_difference_missing.
Qed.

Lemma calculate_difference_without_columns_witness :
  calculate_difference (State sheet_five_rows 0)
  = (Raise ValueError,
     State (with_cell (max_column sheet_five_rows) (VStr "Difference")
              (sheet_row sheet_five_rows 1)
            :: data_rows sheet_five_rows) 0).
Proof. apply calculate_difference_without_columns. right. reflexivity. Defined.

(** ** A column of the same name in the input *)

(** X14.  After [get_address_changes], whatever its outcome, the column
    that [calculate_difference] finds under the name Adresseændringsdato is
    the one that was appended only when the sheet had no column of that name:
    a column of that name in the input comes first and is the one read. *)
Theorem change_column_found execute (ws : Worksheet) k :
  column (sheet (snd (get_address_changes execute (State ws k)))) "Adresseændringsdato"
  = match column ws "Adresseændringsdato" with
    | Some p => Some p
    | None => Some (max_column ws)
    end.
Proof.
  destruct (get_address_changes_shape execute ws k) as (rows' & -> & _ & Hlen).
  cbn [snd sheet]. unfold column at 1. rewrite appended_header by done.
  rewrite list_index_app. fold (column ws "Adresseændringsdato").
  destruct (column ws "Adresseændringsdato"); [done|].
  assert (list_index (VStr "Adresseændringsdato") [VStr "Adresseændringsdato"] = Some 0)
    as -> by reflexivity.
  rewrite row_values_header_length. cbn [fmap option_fmap option_map]. f_equal. lia.
Qed.

(** The dates of the sheet's own column are the ones subtracted: the move
    of 2024-05-01 that the history gives is written in the appended column,
    and the row is deleted for the date 2020-01-01 of its own column. *)
Example process_own_change_column :
  (get_address_changes (history_since (Date 2024 5 1)) ;; calculate_difference)
    (State sheet_own_change_column 0)
  = (Ok tt,
     State [[VStr "CPR"; VStr "Adresseændringsdato"; VStr "Udbetalingsdato";
             VStr "Adresseændringsdato"; VStr "Difference"]] 0).
Proof. vm_compute. reflexivity. Qed.

(** ** The report in one piece *)

Lemma max_column_widest_header hdr (rows : list Row) :
  1 <= length hdr ->
  Forall (fun row => length row <= length hdr) rows ->
  max_column (hdr :: rows) = length hdr.
Proof.
  intros Hhdr Hrows. apply Nat.le_antisymm; [|apply max_column_header].
  apply max_column_bound; [done|]. by constructor.
Qed.

Lemma pad_full n row : n <= length row -> pad n row = row.
Proof.
  intros Hn. unfold pad. replace (n - length row) with 0 by lia. apply app_nil_r.
Qed.

Lemma keep_rows_elem_of keep i (rows : list Row) row' :
  row' ∈ keep_rows keep i rows ->
  exists j row, rows !! j = Some row /\ keep (i + j) row = Some row'.
Proof.
  revert i. induction rows as [|row rows IH]; intros i; cbn [keep_rows].
  { intros Hin. by apply elem_of_nil in Hin. }
  destruct (keep i row) as [row0|] eqn:Hk.
  - intros [->|Hin]%elem_of_cons.
    + exists 0, row. by rewrite Nat.add_0_r.
    + destruct (IH _ Hin) as (j & row1 & Hj & Hkeep). exists (S j), row1.
      split; [done|]. by replace (i + S j) with (S i + j) by lia.
  - intros Hin. destruct (IH _ Hin) as (j & row1 & Hj & Hkeep). exists (S j), row1.
    split; [done|]. by replace (i + S j) with (S i + j) by lia.
Qed.

Lemma day_difference_enriched u w change row dato :
  u < w ->
  cell_of row (u + 1) = VDateTime dato ->
  day_difference u w (with_cell w (VDate change) row)
  = Ok (toordinal change - toordinal (dt_date dato))%Z.
Proof.
  intros Hu Hdato. unfold cell_of in Hdato. rewrite Nat.add_sub in Hdato.
  unfold day_difference. rewrite with_cell_lookup, with_cell_lookup_ne, Hdato by done.
  cbn [date_of minus_date default from_option id]. by rewrite date_sub_days.
Qed.

(** The rows of the report, from the rows the filter keeps. *)
Lemma report_rows_compose execute (filt : nat -> Row -> bool) c u a w i (rows : list Row) :
  u < w ->
  (forall j row, rows !! j = Some row ->
     typed_row u a row
     /\ (filt (i + j) row = false ->
         exists change,
           look_up_address_change (execute (cell_of row (c + 1))) = Ok (Some change))) ->
  omap (persisted u w (S w))
       (enriched execute c w
          <$> keep_rows (fun i row => if filt i row then None else Some row) i rows)
  = keep_rows
      (fun i row =>
         if filt i row then None
         else match look_up_address_change (execute (cell_of row (c + 1))) with
              | Ok (Some change) =>
                  let d := (toordinal change
                            - toordinal (dt_date (disbursement_date u row)))%Z in
                  if (d <? 89)%Z then None
                  else Some (with_cell (S w) (VInt d) (with_cell w (VDate change) row))
              | _ => None
              end)
      i rows.
Proof.
  intros Hu. revert i. induction rows as [|row rows IH]; intros i Hrows; [done|].
  assert (omap (persisted u w (S w))
            (enriched execute c w
               <$> keep_rows (fun i row => if filt i row then None else Some row) (S i) rows)
          = keep_rows
              (fun i row =>
                 if filt i row then None
                 else match look_up_address_change (execute (cell_of row (c + 1))) with
                      | Ok (Some change) =>
                          let d := (toordinal change
                                    - toordinal (dt_date (disbursement_date u row)))%Z in
                          if (d <? 89)%Z then None
                          else Some (with_cell (S w) (VInt d) (with_cell w (VDate change) row))
                      | _ => None
                      end)
              (S i) rows) as Hrest.
  { apply IH. intros j row' Hj. specialize (Hrows (S j) row' Hj).
    by replace (S i + j) with (i + S j) by lia. }
  destruct (Hrows 0 row eq_refl) as [[[dato Hdato] _] Hhist]. rewrite Nat.add_0_r in Hhist.
  cbn [keep_rows]. destruct (filt i row); [done|].
  destruct (Hhist eq_refl) as [change Hchange].
  rewrite fmap_cons.
  assert (forall x (l : list Row),
            omap (persisted u w (S w)) (x :: l)
            = match persisted u w (S w) x with
              | Some y => y :: omap (persisted u w (S w)) l
              | None => omap (persisted u w (S w)) l
              end) as -> by done.
  rewrite Hrest. unfold enriched at 1. rewrite Hchange.
  unfold persisted, difference_step.
  rewrite (day_difference_enriched u w change row dato) by done.
  unfold disbursement_date. rewrite Hdato. cbn zeta.
  by destruct (_ <? 89)%Z.
Qed.

(** X15.  The three steps on the sheet in one piece.  On a sheet that has
    the five columns and none named Adresseændringsdato, whose header is as
    wide as its rows and whose rows are typed as the data model says, and
    when every person the filter keeps has a history, [process] returns; the
    header has the two new names after the old ones; the report holds, in
    their order, the rows that the filter keeps and whose address changed at
    least 89 days after the date of the disbursement, each with the date of
    the change and the difference appended; and the clock has been read once
    for each row of the input. *)
Theorem process_report clock execute hdr (data : list Row) k c b u a r :
  column (hdr :: data) "CPR" = Some c ->
  column (hdr :: data) "Beløb" = Some b ->
  column (hdr :: data) "Udbetalingsdato" = Some u ->
  column (hdr :: data) "Aftale type" = Some a ->
  column (hdr :: data) "RIM aftaletype" = Some r ->
  column (hdr :: data) "Adresseændringsdato" = None ->
  Forall (fun row => length row <= length hdr) data ->
  Forall (typed_row u a) data ->
  (forall i row,
      data !! i = Some row ->
      row_disqualified u a r (clock (k + (length data - 1 - i))) row = false ->
      exists change,
        look_up_address_change (execute (cell_of row (c + 1))) = Ok (Some change)) ->
  process clock execute (State (hdr :: data) k)
  = (Ok tt,
     State ((hdr ++ [VStr "Adresseændringsdato"; VStr "Difference"])
            :: keep_rows (report_row clock execute c u a r (length hdr) k (length data)) 0 data)
           (k + length data)).
Proof.
  intros Hc Hb Hu Ha Hr Hno Hwide Htyped Hhist.
  assert (forall i row, data !! i = Some row -> typed_row u a row) as Ht.
  { intros i row Hi. by eapply Forall_lookup_1. }
  set (w := length hdr).
  set (filt := fun i row => row_disqualified u a r (clock (k + (length data - 1 - i))) row).
  set (rows1 := keep_rows (fun i row => if filt i row then None else Some row) 0 data).
  assert (u < w) as Huw.
  { rewrite column_header in Hu. by apply list_index_lt in Hu. }
  assert (forall row, row ∈ rows1 ->
            length row <= w /\ typed_row u a row
            /\ exists change,
                 look_up_address_change (execute (cell_of row (c + 1))) = Ok (Some change))
    as Hrows1.
  { intros row' Hin. apply keep_rows_elem_of in Hin as (j & row & Hj & Hkeep).
    cbn [Nat.add] in Hkeep. destruct (filt j row) eqn:Hf; [done|]. injection Hkeep as <-.
    split; [by apply (Forall_lookup_1 _ _ _ _ Hwide Hj)|]. split; [by eapply Ht|].
    by apply (Hhist j). }
  (* the filter *)
  unfold process. unfold bind at 1.
  rewrite (read_excel_file_all_ok _ _ _ _ c b u a r) by
    (try done; intros i row Hi; rewrite filter_step_typed; eauto).
  assert (keep_rows (fun i row =>
                       survivor (filter_step u a r (clock (k + (length data - 1 - i))) row))
                    0 data = rows1) as ->.
  { apply keep_rows_ext. intros j row Hj. rewrite filter_step_typed by eauto. done. }
  (* the lookups *)
  assert (max_column (hdr :: rows1) = w) as Hw1.
  { apply max_column_widest_header; [unfold w in Huw; lia|].
    apply Forall_forall. intros row Hin. by apply Hrows1. }
  rewrite column_header in Hc, Hu, Hno.
  unfold bind at 1.
  rewrite (get_address_changes_run execute hdr rows1 (k + length data) c)
    by (by rewrite column_header).
  rewrite Hw1.
  rewrite (forwards_all_ok _ (enriched execute c w)).
  2:{ apply Forall_forall. intros row Hin. apply enrich_step_returns.
      destruct (Hrows1 row Hin) as (_ & _ & change & Hchange).
      apply look_up_address_change_returns. eauto. }
  rewrite with_cell_app, pad_full by done.
  (* the differences *)
  set (rows2 := enriched execute c w <$> rows1).
  assert (Forall (fun row => length row <= S w) rows2) as Hlen2.
  { apply Forall_fmap, Forall_forall. intros row Hin.
    destruct (Hrows1 row Hin) as (Hlen & _ & change & Hchange).
    cbn. unfold enriched. rewrite Hchange. by rewrite with_cell_length. }
  assert (max_column ((hdr ++ [VStr "Adresseændringsdato"]) :: rows2) = S w) as Hw2.
  { rewrite max_column_widest_header; rewrite ?length_app; cbn [length]; [lia|lia|].
    eapply Forall_impl; [done|]. cbn. lia. }
  rewrite (calculate_difference_all_ok _ _ _ u w).
  - rewrite Hw2. rewrite with_cell_app, pad_full by (rewrite length_app; cbn [length]; lia).
    rewrite <- app_assoc. cbn [app]. do 3 f_equal.
    unfold rows2, rows1. rewrite (report_rows_compose execute filt c u a w 0 data Huw).
    + done.
    + intros j row Hj. split; [by eapply Ht|]. cbn [Nat.add]. by apply Hhist.
  - rewrite column_header, list_index_app, Hu. done.
  - rewrite column_header, list_index_app, Hno.
    assert (list_index (VStr "Adresseændringsdato") [VStr "Adresseændringsdato"] = Some 0)
      as -> by reflexivity.
    cbn [fmap option_fmap option_map]. unfold w. f_equal. lia.
  - apply Forall_fmap, Forall_forall. intros row Hin.
    destruct (Hrows1 row Hin) as (_ & [[dato Hdato] _] & change & Hchange).
    cbn. unfold enriched. rewrite Hchange.
    rewrite (day_difference_enriched u w change row dato) by done. eauto.
Qed.

Lemma process_report_witness :
  process clock_june execute_P1_P5 (State sheet_five_rows 0)
  = (Ok tt,
     State ((header5 ++ [VStr "Adresseændringsdato"; VStr "Difference"])
            :: keep_rows (report_row clock_june execute_P1_P5 0 2 3 4 (length header5) 0
                            (length (drop 1 sheet_five_rows)))
                 0 (drop 1 sheet_five_rows))
           (0 + length (drop 1 sheet_five_rows))).
Proof.
  refine (process_report clock_june execute_P1_P5 header5 (drop 1 sheet_five_rows)
            0 0 1 2 3 4 _ _ _ _ _ _ _ _ _); try reflexivity.
  - repeat first [apply List.Forall_nil | apply List.Forall_cons]; simpl; lia.
  - typed_rows.
  - intros [|[|[|[|[|i]]]]] row; intros [= <-]; try discriminate; intros _; eexists; reflexivity.
Defined.

(** On that sheet the report holds the row of P1 alone: P5 moved 18 days
    after the disbursement. *)
Example process_report_five_rows :
  process clock_june execute_P1_P5 (State sheet_five_rows 0)
  = (Ok tt,
     State [header5 ++ [VStr "Adresseændringsdato"; VStr "Difference"];
            [VStr "P1"; VInt 1000; VDateTime (midnight (Date 2024 1 1)); VNone; VNone;
             VDate (Date 2024 5 1); VInt 121]] 5).
Proof. vm_compute. reflexivity. Qed.

(** ** The history past the first change *)

Lemma walk_app key d run older :
  Forall (fun entry => Adressenoegle entry = key) run ->
  (forall entry, head older = Some entry -> Adressenoegle entry <> key) ->
  walk key d (run ++ older) = walk key d run.
Proof.
  intros Hrun Hold. revert d. induction Hrun as [|entry run Hentry _ IH]; intros d.
  - destruct older as [|entry older]; [done|]. cbn [app walk].
    destruct (String.eqb_spec (Adressenoegle entry) key) as [Hk|Hk]; [|done].
    by destruct (Hold entry eq_refl).
  - cbn [app walk]. by rewrite IH.
Qed.

Lemma walk_run_last key d run :
  Forall (fun entry => Adressenoegle entry = key) run ->
  walk key d run = default d (DatoFra <$> last run).
Proof.
  intros Hrun. revert d. induction Hrun as [|entry run Hentry _ IH]; intros d; [done|].
  cbn [walk]. rewrite Hentry, String.eqb_refl, IH, last_cons. by destruct (last run).
Qed.

(** X16.  [look_up_address_change] does not look past the first entry
    whose address differs from the newest: whatever follows that entry, an
    earlier stay at the same address included, the result is the date of the
    last entry before it. *)
Theorem look_up_address_change_stops_at_change n newest run changed older :
  n <> 0%Z ->
  Forall (fun entry => Adressenoegle entry = Adressenoegle newest) run ->
  Adressenoegle changed <> Adressenoegle newest ->
  look_up_address_change {| rowcount := n; fetchall := newest :: run ++ changed :: older |}
  = Ok (Some (DatoFra (default newest (last run)))).
Proof.
  intros Hn Hrun Hchanged. unfold look_up_address_change; cbn [rowcount fetchall].
  destruct (Z.eqb_spec n 0); [done|]. do 2 f_equal.
  change (newest :: run ++ changed :: older) with ((newest :: run) ++ changed :: older).
  rewrite walk_app.
  - rewrite walk_run_last by by constructor. rewrite last_cons.
    by destruct (last run).
  - by constructor.
  - by intros entry [= <-].
Qed.

Lemma look_up_address_change_stops_at_change_witness :
  look_up_address_change {| rowcount := 3; fetchall := history_ABA |}
  = Ok (Some (Date 2024 3 1)).
Proof.
  apply (look_up_address_change_stops_at_change 3
           {| DatoFra := Date 2024 3 1; Adressenoegle := "A" |} []
           {| DatoFra := Date 2023 3 1; Adressenoegle := "B" |}
           [ {| DatoFra := Date 2020 3 1; Adressenoegle := "A" |} ]).
  - lia.
  - constructor.
  - discriminate.
Defined.
